(** * attrs: generated initialisers, comparisons, hashes and reprs

    A shallow embedding of [src/attr/_make.py]: the [NOTHING] sentinel, the
    attribute declaration [attr], the transformation of a class body into
    [__attrs_attrs__], the methods the [attributes] decorator installs and
    the text of the generated [__init__] together with the meaning of that
    text. *)

From Stdlib Require Import ZArith String Ascii Permutation Sorted DecimalString.
From Stdlib Require Import Lia.
From stdpp Require Import base option list gmap strings.

Set Warnings "-register-all".

Local Open Scope Z_scope.
Local Open Scope string_scope.
Local Open Scope list_scope.

(** ** Outcomes of Python operations *)

(** The exceptions that the modelled code and the interpreter raise.
    [UserError] stands for whatever a user callable (a validator or a
    factory) raises; [Unsupported] marks the places where an object outside
    the modelled fragment would be needed. *)
Inductive exn : Type :=
| TypeError
| ValueError
| NameError
| AttributeError
| KeyError
| SyntaxError
| Unsupported
| UserError (tag : nat).

Inductive outcome (A : Type) : Type :=
| Return (a : A)
| Raise (e : exn).
Arguments Return {A} a.
Arguments Raise {A} e.

#[global] Instance outcome_ret : MRet outcome := fun A a => Return a.
#[global] Instance outcome_bind : MBind outcome := fun A B f m =>
  match m with
  | Return a => f a
  | Raise e => Raise e
  end.

Definition returns {A} (m : outcome A) : Prop := exists a, m = Return a.

(** ** Python values *)

(** The fragment of the Python value universe the development ranges over.
    Objects that Python tells apart by identity carry an object id.
    [VNothing oid] is an instance of the class [_Nothing]; [VFactory] and
    [VAttribute] are instances of the two classes of the module that are
    themselves equipped with generated methods. *)
Inductive value : Type :=
| VNone
| VBool (b : bool)
| VInt (n : Z)
| VStr (s : string)
| VList (xs : list value)
| VTuple (xs : list value)
| VNothing (oid : nat)
| VFunction (f : nat)
| VFactory (factory : value)
| VAttribute (name : string) (default validator : value)
    (no_repr no_cmp no_hash no_init : bool)
| VObject (oid : nat).

Inductive pytype : Type :=
| T_NoneType | T_bool | T_int | T_str | T_list | T_tuple
| T_Nothing | T_function | T_Factory | T_Attribute | T_object.

Definition pytype_eqb (s t : pytype) : bool :=
  match s, t with
  | T_NoneType, T_NoneType | T_bool, T_bool | T_int, T_int | T_str, T_str
  | T_list, T_list | T_tuple, T_tuple | T_Nothing, T_Nothing
  | T_function, T_function | T_Factory, T_Factory
  | T_Attribute, T_Attribute | T_object, T_object => true
  | _, _ => false
  end.

(** [v.__class__] *)
Definition type_of (v : value) : pytype :=
  match v with
  | VNone => T_NoneType
  | VBool _ => T_bool
  | VInt _ => T_int
  | VStr _ => T_str
  | VList _ => T_list
  | VTuple _ => T_tuple
  | VNothing _ => T_Nothing
  | VFunction _ => T_function
  | VFactory _ => T_Factory
  | VAttribute _ _ _ _ _ _ _ => T_Attribute
  | VObject _ => T_object
  end.

(** [a is b].  Identity is the object id for objects that have one; [None],
    [True] and [False] are singletons.  Numbers, strings and containers are
    never the sentinel, which is all the modelled code asks of [is]; they
    are compared by content here. *)
Fixpoint py_is (a b : value) {struct a} : bool :=
  match a, b with
  | VNone, VNone => true
  | VBool x, VBool y => Bool.eqb x y
  | VInt x, VInt y => Z.eqb x y
  | VStr x, VStr y => String.eqb x y
  | VNothing i, VNothing j => Nat.eqb i j
  | VFunction f, VFunction g => Nat.eqb f g
  | VObject i, VObject j => Nat.eqb i j
  | VFactory x, VFactory y => py_is x y
  | VAttribute n d v r c h i, VAttribute n' d' v' r' c' h' i' =>
      String.eqb n n' && py_is d d' && py_is v v'
      && Bool.eqb r r' && Bool.eqb c c' && Bool.eqb h h' && Bool.eqb i i'
  | VList xs, VList ys | VTuple xs, VTuple ys =>
      (fix go (xs ys : list value) {struct xs} : bool :=
         match xs, ys with
         | [], [] => true
         | x :: xs', y :: ys' => py_is x y && go xs' ys'
         | _, _ => false
         end) xs ys
  | _, _ => false
  end.

(** ** The sentinel *)



(** [def __eq__(self, other): return self.__class__ == _Nothing] *)
Definition _Nothing__eq__ (self other : value) : bool :=
  pytype_eqb (type_of self) T_Nothing.

(** [def __repr__(self): return "NOTHING"] *)
Definition _Nothing__repr__ (self : value) : string := "NOTHING".

(** [NOTHING = _Nothing()], the first instance of the class. *)
Definition NOTHING : value := VNothing 0.

(** ** The host interpreter *)

Inductive order_op : Type := OpLt | OpLe | OpGt | OpGe.

(** What the development takes from the Python runtime and from the user
    program rather than from the module: the behaviour of user callables
    (validators and factory callables), the hashes and reprs of builtin
    values, the ordering of tuples and SHA-1.  [python3] selects the rule
    for a class that defines [__eq__] and no [__hash__]: Python 3 makes its
    instances unhashable, Python 2 hashes their address. *)
Class Runtime : Type := {
  python3 : bool;
  call_function : nat -> list value -> outcome value;
  hash_none : Z;
  hash_int : Z -> Z;
  hash_str : string -> Z;
  hash_tuple : list Z -> Z;
  hash_id : nat -> Z;
  repr_int : Z -> string;
  repr_str : string -> string;
  repr_function : nat -> string;
  repr_object : nat -> string;
  order_tuples : order_op -> list value -> list value -> outcome bool;
  sha1_hexdigest : string -> string;
}.

(** [sep.join(parts)] *)
Fixpoint join (sep : string) (parts : list string) : string :=
  match parts with
  | [] => EmptyString
  | [p] => p
  | p :: ps => p +:+ sep +:+ join sep ps
  end.

Definition repr_bool (b : bool) : string := if b then "True" else "False".

(** [a == b] on values.  The operator asks the left operand's [__eq__], then
    the right operand's, then falls back to identity.  The builtin types
    answer [NotImplemented] for a foreign operand, so an instance of
    [_Nothing] on either side decides the comparison through
    [_Nothing.__eq__].  Instances of [Factory] and [Attribute] compare the
    tuples of their attributes, as their generated [__eq__] does. *)
Fixpoint py_eq (a b : value) {struct a} : bool :=
  let fix all_eq (xs ys : list value) {struct xs} : bool :=
    match xs, ys with
    | [], [] => true
    | x :: xs', y :: ys' => py_eq x y && all_eq xs' ys'
    | _, _ => false
    end in
  match a, b with
  | VNothing _, _ => _Nothing__eq__ a b
  | _, VNothing _ => _Nothing__eq__ b a
  | VNone, VNone => true
  | VBool x, VBool y => Bool.eqb x y
  | VBool x, VInt y => Z.eqb (Z.b2z x) y
  | VInt x, VBool y => Z.eqb x (Z.b2z y)
  | VInt x, VInt y => Z.eqb x y
  | VStr x, VStr y => String.eqb x y
  | VList xs, VList ys => all_eq xs ys
  | VTuple xs, VTuple ys => all_eq xs ys
  | VFunction f, VFunction g => Nat.eqb f g
  | VObject i, VObject j => Nat.eqb i j
  | VFactory x, VFactory y => py_eq x y
  | VAttribute n d v r c h i, VAttribute n' d' v' r' c' h' i' =>
      String.eqb n n' && py_eq d d' && py_eq v v'
      && Bool.eqb r r' && Bool.eqb c c' && Bool.eqb h h' && Bool.eqb i i'
  | _, _ => false
  end.

(** [def __ne__(self, other): return not self == other] *)
Definition _Nothing__ne__ (self other : value) : bool :=
  negb (py_eq self other).

(** [a != b]: the left operand's [__ne__] where the class defines one
    ([_Nothing] does), the negation of [==] otherwise. *)
Definition py_ne (a b : value) : bool :=
  match a with
  | VNothing _ => _Nothing__ne__ a b
  | _ => negb (py_eq a b)
  end.

Section WithRuntime.
Context `{Runtime}.

(** [hash(v)].  Lists are unhashable; a tuple hashes the hashes of its
    items; [Factory] and [Attribute] hash the tuple of their attributes, as
    their generated [__hash__] does. *)
Fixpoint py_hash (v : value) : outcome Z :=
  let fix hashes (xs : list value) : outcome (list Z) :=
    match xs with
    | [] => Return []
    | x :: xs' =>
        h ← py_hash x; hs ← hashes xs'; Return (h :: hs)
    end in
  match v with
  | VNone => Return hash_none
  | VBool b => Return (hash_int (Z.b2z b))
  | VInt n => Return (hash_int n)
  | VStr s => Return (hash_str s)
  | VList _ => Raise TypeError
  | VTuple xs => hs ← hashes xs; Return (hash_tuple hs)
  | VNothing oid => if python3 then Raise TypeError else Return (hash_id oid)
  | VFunction f => Return (hash_id f)
  | VFactory x => h ← py_hash x; Return (hash_tuple [h])
  | VAttribute n d v r c h i =>
      hd ← py_hash d; hv ← py_hash v;
      Return (hash_tuple [hash_str n; hd; hv; hash_int (Z.b2z r);
                          hash_int (Z.b2z c); hash_int (Z.b2z h);
                          hash_int (Z.b2z i)])
  | VObject oid => Return (hash_id oid)
  end.

(** [repr(v)] *)
Fixpoint py_repr (v : value) : string :=
  let fix reprs (xs : list value) : list string :=
    match xs with
    | [] => []
    | x :: xs' => py_repr x :: reprs xs'
    end in
  match v with
  | VNone => "None"
  | VBool b => repr_bool b
  | VInt n => repr_int n
  | VStr s => repr_str s
  | VList xs => "[" +:+ join ", " (reprs xs) +:+ "]"
  | VTuple [x] => "(" +:+ py_repr x +:+ ",)"
  | VTuple xs => "(" +:+ join ", " (reprs xs) +:+ ")"
  | VNothing _ => _Nothing__repr__ v
  | VFunction f => repr_function f
  | VFactory x => "Factory(factory=" +:+ py_repr x +:+ ")"
  | VAttribute n d v r c h i =>
      "Attribute(name=" +:+ repr_str n
      +:+ ", default=" +:+ py_repr d
      +:+ ", validator=" +:+ py_repr v
      +:+ ", no_repr=" +:+ repr_bool r
      +:+ ", no_cmp=" +:+ repr_bool c
      +:+ ", no_hash=" +:+ repr_bool h
      +:+ ", no_init=" +:+ repr_bool i +:+ ")"
  | VObject oid => repr_object oid
  end.

(** Calling a value: [VFunction] stands for the callables of the user
    program; whether some other user object is callable is not modelled. *)
Definition py_call (f : value) (args : list value) : outcome value :=
  match f with
  | VFunction n => call_function n args
  | VObject _ => Raise Unsupported
  | _ => Raise TypeError
  end.

End WithRuntime.

(** ** Attribute declarations *)

(** An instance of [_CountingAttr], the intermediate object [attr] returns. *)
Module _CountingAttr.
Record t : Type := mk {
  counter : nat;
  default : value;
  validator : value;
  no_repr : bool;
  no_cmp : bool;
  no_hash : bool;
  no_init : bool;
}.
End _CountingAttr.

(** An instance of [Attribute], the read-only description of one attribute. *)
Module Attribute.
Record t : Type := mk {
  name : string;
  default : value;
  validator : value;
  no_repr : bool;
  no_cmp : bool;
  no_hash : bool;
  no_init : bool;
}.

(** [Attribute.from_counting_attr(name, ca)].  [Attribute.__init__] receives
    exactly the seven keyword arguments of [_attributes] here, so neither of
    its [TypeError] branches is taken. *)
Definition from_counting_attr (name : string) (ca : _CountingAttr.t) : t :=
  {| name := name;
     default := _CountingAttr.default ca;
     validator := _CountingAttr.validator ca;
     no_repr := _CountingAttr.no_repr ca;
     no_cmp := _CountingAttr.no_cmp ca;
     no_hash := _CountingAttr.no_hash ca;
     no_init := _CountingAttr.no_init ca |}.

(** The [Attribute] object as a Python value. *)
Definition to_value (a : t) : value :=
  VAttribute (name a) (default a) (validator a)
    (no_repr a) (no_cmp a) (no_hash a) (no_init a).
End Attribute.

(** ** Global state *)

(** An entry of [linecache.cache]: [(size, mtime, lines, fullname)]. *)
Record cache_entry : Type := {
  ce_size : nat;
  ce_mtime : value;
  ce_lines : list string;
  ce_fullname : string;
}.

(** The state that outlives a call: the class variable
    [_CountingAttr.counter] and the dictionary [linecache.cache]. *)
Record world : Type := {
  CountingAttr_counter : nat;
  linecache_cache : gmap string cache_entry;
}.

(** The world when the module body starts to run: [counter = 0]. *)
Definition initial_world (cache : gmap string cache_entry) : world :=
  {| CountingAttr_counter := 0; linecache_cache := cache |}.

(** [_CountingAttr.__init__]: bump the class counter, then record it with
    the arguments on the new instance. *)
Definition _CountingAttr__init__
    (default validator : value) (no_repr no_cmp no_hash no_init : bool)
    (w : world) : _CountingAttr.t * world :=
  let w' := {| CountingAttr_counter := S (CountingAttr_counter w);
               linecache_cache := linecache_cache w |} in
  ({| _CountingAttr.counter := CountingAttr_counter w';
      _CountingAttr.default := default;
      _CountingAttr.validator := validator;
      _CountingAttr.no_repr := no_repr;
      _CountingAttr.no_cmp := no_cmp;
      _CountingAttr.no_hash := no_hash;
      _CountingAttr.no_init := no_init |}, w').

(** The keyword arguments of [attr], with their defaults in [attr_defaults]. *)
Record attr_args : Type := {
  arg_default : value;
  arg_validator : value;
  arg_no_repr : bool;
  arg_no_cmp : bool;
  arg_no_hash : bool;
  arg_no_init : bool;
}.

Definition attr_defaults : attr_args :=
  {| arg_default := NOTHING; arg_validator := VNone;
     arg_no_repr := false; arg_no_cmp := false;
     arg_no_hash := false; arg_no_init := false |}.

(** [attr(default=NOTHING, validator=None, no_repr=False, ...)] *)
Definition attr (k : attr_args) (w : world) : _CountingAttr.t * world :=
  _CountingAttr__init__ (arg_default k) (arg_validator k)
    (arg_no_repr k) (arg_no_cmp k) (arg_no_hash k) (arg_no_init k) w.

(** ** Classes *)

(** The comparison methods [_add_cmp] installs. *)
Inductive cmp_op : Type := CmpEq | CmpNe | CmpLt | CmpLe | CmpGt | CmpGe.

(** A function found in a class dictionary: one of the closures the module
    generates, which capture the list [attrs] they were built from, or a
    function of the user. *)
Inductive method : Type :=
| GenRepr (attrs : list Attribute.t)
| GenCmp (op : cmp_op) (attrs : list Attribute.t)
| GenHash (attrs : list Attribute.t)
| GenInit (attrs : list Attribute.t)
| UserMethod (f : nat).

(** What a name of a class dictionary is bound to. *)
Inductive member : Type :=
| MCounting (ca : _CountingAttr.t)
| MAttribute (a : Attribute.t)
| MAttrsList (attrs : list Attribute.t)
| MMethod (m : method)
| MValue (v : value).

(** A class: its identity, [__name__], its base (single inheritance; [None]
    stands for [object]) and its own [__dict__] in iteration order. *)
Inductive pyclass : Type := mk_pyclass {
  cls_id : nat;
  __name__ : string;
  cls_base : option pyclass;
  __dict__ : list (string * member);
}.

Fixpoint dict_get {A} (d : list (string * A)) (key : string) : option A :=
  match d with
  | [] => None
  | (k, x) :: d' => if String.eqb k key then Some x else dict_get d' key
  end.

(** [d[key] = x]: replace in place when the key is bound, append otherwise. *)
Fixpoint dict_set {A} (d : list (string * A)) (key : string) (x : A)
  : list (string * A) :=
  match d with
  | [] => [(key, x)]
  | (k, y) :: d' =>
      if String.eqb k key then (k, x) :: d' else (k, y) :: dict_set d' key x
  end.

(** [setattr(cl, key, m)] *)
Definition class_setattr (cl : pyclass) (key : string) (m : member) : pyclass :=
  {| cls_id := cls_id cl; __name__ := __name__ cl; cls_base := cls_base cl;
     __dict__ := dict_set (__dict__ cl) key m |}.

(** [getattr(cl, key)] on a class: its own dictionary, then its bases. *)
Fixpoint class_getattr (cl : pyclass) (key : string) : option member :=
  match dict_get (__dict__ cl) key with
  | Some m => Some m
  | None =>
      match cls_base cl with
      | Some b => class_getattr b key
      | None => None
      end
  end.

(** [cl.__attrs_attrs__] *)
Definition __attrs_attrs__ (cl : pyclass) : outcome (list Attribute.t) :=
  match class_getattr cl "__attrs_attrs__" with
  | Some (MAttrsList l) => Return l
  | Some _ => Raise TypeError
  | None => Raise AttributeError
  end.

(** [issubclass(c, d)] along the chain of bases. *)
Fixpoint issubclass (c d : pyclass) : bool :=
  Nat.eqb (cls_id c) (cls_id d)
  || match cls_base c with
     | Some b => issubclass b d
     | None => false
     end.

(** ** [_transform_attrs] *)

(** [(name, attr) for name, attr in cl.__dict__.items()
     if isinstance(attr, _CountingAttr)] *)
Definition counting_items (cl : pyclass) : list (string * _CountingAttr.t) :=
  omap (fun e : string * member =>
          match e.2 with
          | MCounting ca => Some (e.1, ca)
          | _ => None
          end) (__dict__ cl).

(** [sorted(items, key=lambda e: e[1].counter)].  Python sorts stably: an
    item goes before the first item whose key is not smaller. *)
Fixpoint insert_by_counter (e : string * _CountingAttr.t)
    (l : list (string * _CountingAttr.t)) : list (string * _CountingAttr.t) :=
  match l with
  | [] => [e]
  | e' :: l' =>
      if Nat.leb (_CountingAttr.counter e.2) (_CountingAttr.counter e'.2)
      then e :: e' :: l'
      else e' :: insert_by_counter e l'
  end.

Fixpoint sorted_by_counter (l : list (string * _CountingAttr.t))
  : list (string * _CountingAttr.t) :=
  match l with
  | [] => []
  | e :: l' => insert_by_counter e (sorted_by_counter l')
  end.

(** [cl.__attrs_attrs__.append(a)] *)
Definition attrs_append (cl : pyclass) (a : Attribute.t) : pyclass :=
  match dict_get (__dict__ cl) "__attrs_attrs__" with
  | Some (MAttrsList l) =>
      class_setattr cl "__attrs_attrs__" (MAttrsList (l ++ [a]))
  | _ => cl
  end.

(** The body of the [for] loop of [_transform_attrs], over the sorted
    items.  The class is returned with the outcome: an exception leaves it
    as the loop had changed it so far. *)
Fixpoint transform_loop (items : list (string * _CountingAttr.t))
    (had_default : bool) (cl : pyclass) : outcome unit * pyclass :=
  match items with
  | [] => (Return tt, cl)
  | (attr_name, ca) :: rest =>
      let a := Attribute.from_counting_attr attr_name ca in
      if had_default && py_is (Attribute.default a) NOTHING then
        (Raise ValueError, cl)
      else
        let had_default :=
          if negb had_default && negb (py_is (Attribute.default a) NOTHING)
          then true else had_default in
        let cl := attrs_append cl a in
        let cl := class_setattr cl attr_name (MAttribute a) in
        transform_loop rest had_default cl
  end.

Definition _transform_attrs (cl : pyclass) : outcome unit * pyclass :=
  let cl := class_setattr cl "__attrs_attrs__" (MAttrsList []) in
  let items := sorted_by_counter (counting_items cl) in
  transform_loop items false cl.

(** ** Instances *)

(** An instance of a user class: its class and its own [__dict__]. *)
Record instance : Type := {
  inst_class : pyclass;
  inst_dict : gmap string value;
}.

(** Any operand a generated method may receive: an instance of a user class
    or a value of the fragment. *)
Inductive pyobj : Type :=
| OInstance (i : instance)
| OValue (v : value).

(** [isinstance(o, c)] for a user class [c]. *)
Definition isinstance (o : pyobj) (c : pyclass) : bool :=
  match o with
  | OInstance i => issubclass (inst_class i) c
  | OValue _ => false
  end.

(** [getattr(obj, key)]: the instance dictionary, then the class and its
    bases.  After [_transform_attrs] the class binds each attribute name to
    its [Attribute], which is what an instance without the field shows. *)
Definition getattr (obj : instance) (key : string) : outcome value :=
  match inst_dict obj !! key with
  | Some v => Return v
  | None =>
      match class_getattr (inst_class obj) key with
      | Some (MAttribute a) => Return (Attribute.to_value a)
      | Some (MValue v) => Return v
      | Some _ => Raise Unsupported
      | None => Raise AttributeError
      end
  end.

Definition getattr_obj (o : pyobj) (key : string) : outcome value :=
  match o with
  | OInstance i => getattr i key
  | OValue _ => Raise AttributeError
  end.

(** [tuple(getattr(obj, a.name) for a in attrs)] *)
Definition _attrs_to_tuple (obj : pyobj) (attrs : list Attribute.t)
  : outcome (list value) :=
  mapM (fun a => getattr_obj obj (Attribute.name a)) attrs.

(** ** Generated methods *)

(** What a comparison method returns. *)
Inductive cmp_result : Type :=
| CmpBool (b : bool)
| NotImplemented.

Section Generated.
Context `{Runtime}.

(** The closure [hash_] of [_add_hash]. *)
Definition hash_ (attrs : list Attribute.t) (self : instance) : outcome Z :=
  t ← _attrs_to_tuple (OInstance self) attrs;
  py_hash (VTuple t).

(** The closure [repr_] of [_add_repr]. *)
Definition repr_ (attrs : list Attribute.t) (self : instance) : outcome string :=
  parts ← mapM (fun a =>
                  v ← getattr self (Attribute.name a);
                  Return (Attribute.name a +:+ "=" +:+ py_repr v)) attrs;
  Return (__name__ (inst_class self) +:+ "(" +:+ join ", " parts +:+ ")").

End Generated.

(** The closures [eq], [ne], [lt], [le], [gt] and [ge] that [_add_cmp]
    defines over its [attrs]. *)
Module Cmp.
Section Closures.
Context `{Runtime}.

Definition eq (attrs : list Attribute.t) (self : instance) (other : pyobj)
  : outcome cmp_result :=
  if isinstance other (inst_class self) then
    t1 ← _attrs_to_tuple (OInstance self) attrs;
    t2 ← _attrs_to_tuple other attrs;
    Return (CmpBool (py_eq (VTuple t1) (VTuple t2)))
  else Return NotImplemented.

Definition ne (attrs : list Attribute.t) (self : instance) (other : pyobj)
  : outcome cmp_result :=
  result ← eq attrs self other;
  match result with
  | NotImplemented => Return NotImplemented
  | CmpBool b => Return (CmpBool (negb b))
  end.




End Closures.
End Cmp.

(** The default of the [attrs] parameter of [_add_hash], [_add_cmp] and
    [_add_repr]: the attributes of the class that do not set the flag. *)
Definition attrs_or_default (cl : pyclass) (flag : Attribute.t -> bool)
    (attrs : option (list Attribute.t)) : outcome (list Attribute.t) :=
  match attrs with
  | Some l => Return l
  | None =>
      l ← __attrs_attrs__ cl;
      Return (List.filter (fun a => negb (flag a)) l)
  end.

Definition _add_hash (cl : pyclass) (attrs : option (list Attribute.t))
  : outcome pyclass :=
  attrs ← attrs_or_default cl Attribute.no_hash attrs;
  Return (class_setattr cl "__hash__" (MMethod (GenHash attrs))).

Definition _add_cmp (cl : pyclass) (attrs : option (list Attribute.t))
  : outcome pyclass :=
  attrs ← attrs_or_default cl Attribute.no_cmp attrs;
  let cl := class_setattr cl "__eq__" (MMethod (GenCmp CmpEq attrs)) in
  let cl := class_setattr cl "__ne__" (MMethod (GenCmp CmpNe attrs)) in
  let cl := class_setattr cl "__lt__" (MMethod (GenCmp CmpLt attrs)) in
  let cl := class_setattr cl "__le__" (MMethod (GenCmp CmpLe attrs)) in
  let cl := class_setattr cl "__gt__" (MMethod (GenCmp CmpGt attrs)) in
  let cl := class_setattr cl "__ge__" (MMethod (GenCmp CmpGe attrs)) in
  Return cl.

Definition _add_repr (cl : pyclass) (attrs : option (list Attribute.t))
  : outcome pyclass :=
  attrs ← attrs_or_default cl Attribute.no_repr attrs;
  Return (class_setattr cl "__repr__" (MMethod (GenRepr attrs))).

(** ** The text of the generated [__init__] *)

Definition nl : string := String "010"%char EmptyString.
Definition dq : string := String "034"%char EmptyString.

(** [s.lstrip("_")] *)
Fixpoint lstrip_underscores (s : string) : string :=
  match s with
  | String c s' => if Ascii.eqb c "_"%char then lstrip_underscores s' else s
  | EmptyString => EmptyString
  end.

(** [s.split("\n")] *)
Fixpoint split_lines (s : string) : list string :=
  match s with
  | EmptyString => [EmptyString]
  | String c s' =>
      if Ascii.eqb c "010"%char then EmptyString :: split_lines s'
      else match split_lines s' with
           | [] => [String c EmptyString]
           | l :: ls => String c l :: ls
           end
  end.

(** [s.splitlines(True)], for text whose only line boundary is the newline
    character, as the generated script is. *)
Fixpoint splitlines_keepends (s : string) : list string :=
  match s with
  | EmptyString => []
  | String c s' =>
      if Ascii.eqb c "010"%char then String c EmptyString :: splitlines_keepends s'
      else match splitlines_keepends s' with
           | [] => [String c EmptyString]
           | l :: ls => String c l :: ls
           end
  end.

(** [isinstance(v, Factory)] *)
Definition is_Factory (v : value) : bool :=
  match v with
  | VFactory _ => true
  | _ => false
  end.

(** [v is None] *)
Definition is_None (v : value) : bool :=
  match v with
  | VNone => true
  | _ => false
  end.

(** The three shapes an attribute takes in the script, after the tests
    [a.default is not NOTHING and not isinstance(a.default, Factory)] and
    [a.default is not NOTHING and isinstance(a.default, Factory)]. *)
Inductive default_kind : Type := PlainDefault | FactoryDefault | Mandatory.

Definition default_kind_of (a : Attribute.t) : default_kind :=
  if negb (py_is (Attribute.default a) NOTHING)
     && negb (is_Factory (Attribute.default a)) then PlainDefault
  else if negb (py_is (Attribute.default a) NOTHING)
          && is_Factory (Attribute.default a) then FactoryDefault
  else Mandatory.

(** The entries one attribute adds to [lines]. *)
Definition script_lines (a : Attribute.t) : list string :=
  let attr_name := Attribute.name a in
  let arg_name := lstrip_underscores (Attribute.name a) in
  (if negb (is_None (Attribute.validator a)) then
     ["attr_dict['" +:+ attr_name +:+ "'].validator(attr_dict['"
      +:+ attr_name +:+ "'], " +:+ attr_name +:+ ")"]
   else [])
  ++ match default_kind_of a with
     | PlainDefault => ["self." +:+ attr_name +:+ " = " +:+ arg_name]
     | FactoryDefault =>
         split_lines
           ("if " +:+ arg_name +:+ " is not NOTHING:" +:+ nl
            +:+ "    self." +:+ attr_name +:+ " = " +:+ arg_name +:+ nl
            +:+ "else:" +:+ nl
            +:+ "    self." +:+ attr_name +:+ " = attr_dict[" +:+ dq
            +:+ attr_name +:+ dq +:+ "].default.factory()")
     | Mandatory => ["self." +:+ attr_name +:+ " = " +:+ arg_name]
     end.

(** The entry one attribute adds to [args]. *)
Definition script_arg (a : Attribute.t) : string :=
  let attr_name := Attribute.name a in
  let arg_name := lstrip_underscores (Attribute.name a) in
  match default_kind_of a with
  | PlainDefault => arg_name +:+ "=attr_dict['" +:+ attr_name +:+ "'].default"
  | FactoryDefault => arg_name +:+ "=NOTHING"
  | Mandatory => arg_name
  end.

(** [_attrs_to_script(attrs)]: the loop appends to [lines] and [args]
    attribute by attribute, then the template is filled in. *)
Definition _attrs_to_script (attrs : list Attribute.t) : string :=
  let lines := List.flat_map script_lines attrs in
  let args := List.map script_arg attrs in
  "def __init__(self, " +:+ join ", " args +:+ "):" +:+ nl
  +:+ "    '''" +:+ nl
  +:+ "    Attribute initializer automatically created by attrs." +:+ nl
  +:+ "    '''" +:+ nl
  +:+ "    " +:+ join (nl +:+ "    ") lines +:+ nl.

(** ** The syntax of the generated [__init__] *)

Inductive quote : Type := SingleQuote | DoubleQuote.

Inductive expr : Type :=
| EName (id : string)
| EStr (q : quote) (s : string)
| ESubscript (e index : expr)
| EAttr (e : expr) (attr : string)
| ECall (f : expr) (args : list expr)
| EIsNot (a b : expr).

Inductive stmt : Type :=
| SExpr (e : expr)
| SAssignAttr (target : expr) (attr : string) (e : expr)
| SIf (cond : expr) (body orelse : list stmt).

Record param : Type := {
  param_name : string;
  param_default : option expr;
}.

(** [def __init__(self, <fd_args>): <docstring> <fd_body>] *)
Record funcdef : Type := {
  fd_args : list param;
  fd_body : list stmt;
}.

(** [attr_dict[<q>attr_name<q>]] *)
Definition attr_dict_entry (q : quote) (attr_name : string) : expr :=
  ESubscript (EName "attr_dict") (EStr q attr_name).

(** The statements of one attribute: the validator call, when there is a
    validator, then the assignment in one of its three shapes. *)
Definition script_stmts (a : Attribute.t) : list stmt :=
  let attr_name := Attribute.name a in
  let arg_name := lstrip_underscores (Attribute.name a) in
  (if negb (is_None (Attribute.validator a)) then
     [SExpr (ECall (EAttr (attr_dict_entry SingleQuote attr_name) "validator")
               [attr_dict_entry SingleQuote attr_name; EName attr_name])]
   else [])
  ++ match default_kind_of a with
     | PlainDefault => [SAssignAttr (EName "self") attr_name (EName arg_name)]
     | FactoryDefault =>
         [SIf (EIsNot (EName arg_name) (EName "NOTHING"))
            [SAssignAttr (EName "self") attr_name (EName arg_name)]
            [SAssignAttr (EName "self") attr_name
               (ECall (EAttr (EAttr (attr_dict_entry DoubleQuote attr_name)
                                "default") "factory") [])]]
     | Mandatory => [SAssignAttr (EName "self") attr_name (EName arg_name)]
     end.

Definition script_param (a : Attribute.t) : param :=
  let attr_name := Attribute.name a in
  let arg_name := lstrip_underscores (Attribute.name a) in
  match default_kind_of a with
  | PlainDefault =>
      {| param_name := arg_name;
         param_default :=
           Some (EAttr (attr_dict_entry SingleQuote attr_name) "default") |}
  | FactoryDefault =>
      {| param_name := arg_name; param_default := Some (EName "NOTHING") |}
  | Mandatory => {| param_name := arg_name; param_default := None |}
  end.

(** The syntax tree of [_attrs_to_script attrs]. *)
Definition script_ast (attrs : list Attribute.t) : funcdef :=
  {| fd_args := List.map script_param attrs;
     fd_body := List.flat_map script_stmts attrs |}.

(** Printing the tree back gives the text. *)
Definition render_quote (q : quote) : string :=
  match q with
  | SingleQuote => "'"
  | DoubleQuote => dq
  end.

Fixpoint render_expr (e : expr) : string :=
  match e with
  | EName x => x
  | EStr q s => render_quote q +:+ s +:+ render_quote q
  | ESubscript e i => render_expr e +:+ "[" +:+ render_expr i +:+ "]"
  | EAttr e a => render_expr e +:+ "." +:+ a
  | ECall f args =>
      render_expr f +:+ "(" +:+ join ", " (List.map render_expr args) +:+ ")"
  | EIsNot a b => render_expr a +:+ " is not " +:+ render_expr b
  end.

Definition indent (line : string) : string := "    " +:+ line.

Fixpoint render_stmt (s : stmt) : list string :=
  match s with
  | SExpr e => [render_expr e]
  | SAssignAttr t a e => [render_expr t +:+ "." +:+ a +:+ " = " +:+ render_expr e]
  | SIf c body orelse =>
      ["if " +:+ render_expr c +:+ ":"]
      ++ List.map indent (List.flat_map render_stmt body)
      ++ ["else:"]
      ++ List.map indent (List.flat_map render_stmt orelse)
  end.

Definition render_param (p : param) : string :=
  match param_default p with
  | Some d => param_name p +:+ "=" +:+ render_expr d
  | None => param_name p
  end.

Definition render (fd : funcdef) : string :=
  "def __init__(self, " +:+ join ", " (List.map render_param (fd_args fd))
  +:+ "):" +:+ nl
  +:+ "    '''" +:+ nl
  +:+ "    Attribute initializer automatically created by attrs." +:+ nl
  +:+ "    '''" +:+ nl
  +:+ "    " +:+ join (nl +:+ "    ") (List.flat_map render_stmt (fd_body fd))
  +:+ nl.

(** ** Compiling the script *)

Definition is_letter_ (c : ascii) : bool :=
  let n := nat_of_ascii c in
  ((65 <=? n) && (n <=? 90) || (97 <=? n) && (n <=? 122) || (n =? 95))%nat.

Definition is_digit (c : ascii) : bool :=
  let n := nat_of_ascii c in ((48 <=? n) && (n <=? 57))%nat.

Fixpoint all_chars (p : ascii -> bool) (s : string) : bool :=
  match s with
  | EmptyString => true
  | String c s' => p c && all_chars p s'
  end.

Definition keywords : list string :=
  ["and"; "as"; "assert"; "break"; "class"; "continue"; "def"; "del";
   "elif"; "else"; "except"; "finally"; "for"; "from"; "global"; "if";
   "import"; "in"; "is"; "lambda"; "not"; "or"; "pass"; "raise"; "return";
   "try"; "while"; "with"; "yield"].

(** Names that are reserved in some versions of Python only. *)
Definition version_keywords : list string :=
  ["False"; "None"; "True"; "async"; "await"; "exec"; "nonlocal"; "print"].

Definition mem_string (x : string) (l : list string) : bool :=
  existsb (String.eqb x) l.

(** An ASCII identifier that is not a keyword. *)
Definition identifier (s : string) : bool :=
  match s with
  | EmptyString => false
  | String c s' =>
      is_letter_ c && all_chars (fun c => is_letter_ c || is_digit c) s'
      && negb (mem_string s keywords)
  end.

Fixpoint distinct (l : list string) : bool :=
  match l with
  | [] => true
  | x :: l' => negb (mem_string x l') && distinct l'
  end.

(** No parameter without a default after one with a default. *)
Fixpoint defaults_last (seen_default : bool) (ps : list param) : bool :=
  match ps with
  | [] => true
  | p :: ps' =>
      match param_default p with
      | Some _ => defaults_last true ps'
      | None => negb seen_default && defaults_last false ps'
      end
  end.

Fixpoint expr_names (e : expr) : list string :=
  match e with
  | EName x => [x]
  | EStr _ _ => []
  | ESubscript e i => expr_names e ++ expr_names i
  | EAttr e a => a :: expr_names e
  | ECall f args => expr_names f ++ List.flat_map expr_names args
  | EIsNot a b => expr_names a ++ expr_names b
  end.

Fixpoint stmt_names (s : stmt) : list string :=
  match s with
  | SExpr e => expr_names e
  | SAssignAttr t a e => a :: expr_names t ++ expr_names e
  | SIf c body orelse =>
      expr_names c ++ List.flat_map stmt_names body
      ++ List.flat_map stmt_names orelse
  end.

Definition funcdef_names (fd : funcdef) : list string :=
  List.map param_name (fd_args fd)
  ++ List.flat_map (fun p => match param_default p with
                             | Some d => expr_names d
                             | None => []
                             end) (fd_args fd)
  ++ List.flat_map stmt_names (fd_body fd).

Definition ascii_only (s : string) : bool :=
  all_chars (fun c => (nat_of_ascii c <? 128)%nat) s.

(** [compile(script, unique_filename, "exec")], on the tree of the script.
    The model follows attribute names that are ASCII identifiers, as a class
    body binds them: a script built from them is well-formed unless two
    parameters share a name or a parameter is called [self]. Any other name,
    which only [make_class] or [type] can bind, is answered with
    [Unsupported] when what Python does with the text depends on the version
    or when the name is not ASCII, and with [SyntaxError] otherwise. *)
Definition compile (fd : funcdef) : outcome funcdef :=
  let names := funcdef_names fd in
  if negb (forallb ascii_only names) then Raise Unsupported
  else if existsb (fun x => mem_string x version_keywords) names
  then Raise Unsupported
  else if forallb identifier names
          && distinct ("self" :: List.map param_name (fd_args fd))
          && defaults_last false (fd_args fd)
  then Return fd
  else Raise SyntaxError.

(** ** Running the generated [__init__] *)

(** What a name or an expression of the script denotes: the instance under
    construction, the dictionary [attr_dict], or a value. *)
Inductive rtval : Type :=
| RSelf
| RValue (v : value)
| RAttrDict (d : list (string * Attribute.t)).

(** [dict((a.name, a) for a in attrs)] *)
Definition make_attr_dict (attrs : list Attribute.t)
  : list (string * Attribute.t) :=
  fold_left (fun d a => dict_set d (Attribute.name a) a) attrs [].

(** The globals [exec_] runs the script in:
    [{"NOTHING": NOTHING, "attr_dict": attr_dict}]. *)
Definition init_globals (attrs : list Attribute.t) : gmap string rtval :=
  <["NOTHING" := RValue NOTHING]>
    (<["attr_dict" := RAttrDict (make_attr_dict attrs)]> ∅).

(** A name that is bound neither locally nor globally is looked up among
    the builtins.  The names the script can leave free are attribute names
    with leading underscores; the builtins of that form are listed here, and
    a free name without a leading underscore is never generated. *)
Definition maybe_builtin (x : string) : bool :=
  match x with
  | String "_" _ =>
      mem_string x ["__build_class__"; "__builtins__"; "__debug__"; "__doc__";
                    "__import__"; "__loader__"; "__name__"; "__package__";
                    "__spec__"]
  | _ => true
  end.

Definition rt_is (x y : rtval) : bool :=
  match x, y with
  | RSelf, RSelf => true
  | RValue a, RValue b => py_is a b
  | _, _ => false
  end.

(** [container[key]] *)
Definition subscript (c k : rtval) : outcome rtval :=
  match c with
  | RAttrDict d =>
      match k with
      | RValue (VStr s) =>
          match dict_get d s with
          | Some a => Return (RValue (Attribute.to_value a))
          | None => Raise KeyError
          end
      | _ => Raise Unsupported
      end
  | RSelf | RValue (VFunction _) | RValue (VObject _) => Raise Unsupported
  | RValue _ => Raise TypeError
  end.

(** [o.field], for the fields the script reads. *)
Definition get_attribute (o : rtval) (field : string) : outcome rtval :=
  match o with
  | RValue (VAttribute n d v r c h i) =>
      if String.eqb field "name" then Return (RValue (VStr n))
      else if String.eqb field "default" then Return (RValue d)
      else if String.eqb field "validator" then Return (RValue v)
      else if String.eqb field "no_repr" then Return (RValue (VBool r))
      else if String.eqb field "no_cmp" then Return (RValue (VBool c))
      else if String.eqb field "no_hash" then Return (RValue (VBool h))
      else if String.eqb field "no_init" then Return (RValue (VBool i))
      else Raise Unsupported
  | RValue (VFactory x) =>
      if String.eqb field "factory" then Return (RValue x)
      else Raise Unsupported
  | RSelf | RAttrDict _ | RValue (VFunction _) | RValue (VObject _) =>
      Raise Unsupported
  | RValue _ =>
      if mem_string field ["default"; "validator"; "factory"]
      then Raise AttributeError else Raise Unsupported
  end.

Definition as_value (r : rtval) : outcome value :=
  match r with
  | RValue v => Return v
  | _ => Raise Unsupported
  end.

Section Interpreter.
Context `{Runtime}.
Variables (globals locals : gmap string rtval).

Fixpoint eval (e : expr) : outcome rtval :=
  match e with
  | EName x =>
      match locals !! x with
      | Some r => Return r
      | None =>
          match globals !! x with
          | Some r => Return r
          | None => if maybe_builtin x then Raise Unsupported
                    else Raise NameError
          end
      end
  | EStr _ s => Return (RValue (VStr s))
  | ESubscript e i => c ← eval e; k ← eval i; subscript c k
  | EAttr e a => o ← eval e; get_attribute o a
  | ECall f args =>
      fv ← eval f;
      argv ← mapM eval args;
      fv ← as_value fv;
      argv ← mapM as_value argv;
      r ← py_call fv argv;
      Return (RValue r)
  | EIsNot a b => x ← eval a; y ← eval b;
                  Return (RValue (VBool (negb (rt_is x y))))
  end.

(** Statements change the dictionary of the instance; an exception leaves
    it as it was when the exception was raised. *)
Fixpoint exec (s : stmt) (d : gmap string value)
  : outcome unit * gmap string value :=
  let fix exec_block (b : list stmt) (d : gmap string value)
    : outcome unit * gmap string value :=
    match b with
    | [] => (Return tt, d)
    | s :: b' =>
        match exec s d with
        | (Return _, d') => exec_block b' d'
        | (Raise e, d') => (Raise e, d')
        end
    end in
  match s with
  | SExpr e =>
      match eval e with
      | Return _ => (Return tt, d)
      | Raise x => (Raise x, d)
      end
  | SAssignAttr t a e =>
      match eval e with
      | Raise x => (Raise x, d)
      | Return v =>
          match eval t with
          | Raise x => (Raise x, d)
          | Return RSelf =>
              match v with
              | RValue v => (Return tt, <[a:=v]> d)
              | _ => (Raise Unsupported, d)
              end
          | Return _ => (Raise Unsupported, d)
          end
      end
  | SIf c body orelse =>
      match eval c with
      | Raise x => (Raise x, d)
      | Return (RValue (VBool true)) => exec_block body d
      | Return (RValue (VBool false)) => exec_block orelse d
      | Return _ => (Raise Unsupported, d)
      end
  end.

Fixpoint exec_block (b : list stmt) (d : gmap string value)
  : outcome unit * gmap string value :=
  match b with
  | [] => (Return tt, d)
  | s :: b' =>
      match exec s d with
      | (Return _, d') => exec_block b' d'
      | (Raise e, d') => (Raise e, d')
      end
  end.

End Interpreter.

Section Calls.
Context `{Runtime}.

(** [exec_(bytecode, globals, locs)]: the [def] statement evaluates the
    defaults of the parameters, once, in the globals. *)
Definition eval_defaults (globals : gmap string rtval) (ps : list param)
  : outcome (list (string * option rtval)) :=
  mapM (fun p =>
          match param_default p with
          | None => Return (param_name p, None)
          | Some d => r ← eval globals ∅ d; Return (param_name p, Some r)
          end) ps.

(** Positional arguments fill the parameters from the left. *)
Fixpoint bind_positional (ps : list (string * option rtval))
    (args : list value) (locals : gmap string rtval)
  : outcome (gmap string rtval) :=
  match args, ps with
  | [], _ => Return locals
  | _ :: _, [] => Raise TypeError
  | v :: args', (x, _) :: ps' =>
      bind_positional ps' args' (<[x := RValue v]> locals)
  end.

(** A keyword argument must name a parameter that is still unbound. *)
Fixpoint bind_keywords (ps : list (string * option rtval))
    (kwargs : list (string * value)) (locals : gmap string rtval)
  : outcome (gmap string rtval) :=
  match kwargs with
  | [] => Return locals
  | (k, v) :: kwargs' =>
      if negb (mem_string k (List.map fst ps)) then Raise TypeError
      else match locals !! k with
           | Some _ => Raise TypeError
           | None => bind_keywords ps kwargs' (<[k := RValue v]> locals)
           end
  end.

(** A parameter left unbound takes its default; without one the call
    fails. *)
Fixpoint bind_defaults (ps : list (string * option rtval))
    (locals : gmap string rtval) : outcome (gmap string rtval) :=
  match ps with
  | [] => Return locals
  | (x, d) :: ps' =>
      match locals !! x, d with
      | Some _, _ => bind_defaults ps' locals
      | None, Some r => bind_defaults ps' (<[x := r]> locals)
      | None, None => Raise TypeError
      end
  end.

Definition bind_args (ps : list (string * option rtval))
    (args : list value) (kwargs : list (string * value))
  : outcome (gmap string rtval) :=
  locals ← bind_positional ps args (<["self" := RSelf]> ∅);
  locals ← bind_keywords ps kwargs locals;
  bind_defaults ps locals.

(** Calling the [__init__] generated for [attrs] on [self] with positional
    and keyword arguments.  The instance is returned with the outcome. *)
Definition generated_init (attrs : list Attribute.t) (self : instance)
    (args : list value) (kwargs : list (string * value))
  : outcome unit * instance :=
  let fd := script_ast attrs in
  let globals := init_globals attrs in
  match ps ← eval_defaults globals (fd_args fd); bind_args ps args kwargs with
  | Raise e => (Raise e, self)
  | Return locals =>
      let '(r, d) := exec_block globals locals (fd_body fd) (inst_dict self) in
      (r, {| inst_class := inst_class self; inst_dict := d |})
  end.

(** [repr(attrs)], the repr of a list of [Attribute]s. *)
Definition repr_attrs (attrs : list Attribute.t) : string :=
  py_repr (VList (List.map Attribute.to_value attrs)).

(** [_add_init(cl)] *)
Definition _add_init (cl : pyclass) (w : world) : outcome pyclass * world :=
  match __attrs_attrs__ cl with
  | Raise e => (Raise e, w)
  | Return all_attrs =>
      let attrs := List.filter (fun a => negb (Attribute.no_init a)) all_attrs in
      let unique_filename :=
        "<attrs generated init " +:+ sha1_hexdigest (repr_attrs attrs) +:+ ">" in
      let script := _attrs_to_script attrs in
      match bytecode ← compile (script_ast attrs);
            eval_defaults (init_globals attrs) (fd_args bytecode) with
      | Raise e => (Raise e, w)
      | Return _ =>
          let entry := {| ce_size := String.length script;
                          ce_mtime := VNone;
                          ce_lines := splitlines_keepends script;
                          ce_fullname := unique_filename |} in
          let w' := {| CountingAttr_counter := CountingAttr_counter w;
                       linecache_cache :=
                         <[unique_filename := entry]> (linecache_cache w) |} in
          (Return (class_setattr cl "__init__" (MMethod (GenInit attrs))), w')
      end
  end.

End Calls.

(** ** The decorator *)

(** The keyword arguments of [attributes]. *)
Record decorator_args : Type := {
  dec_no_repr : bool;
  dec_no_cmp : bool;
  dec_no_hash : bool;
  dec_no_init : bool;
}.

Section Decorator.
Context `{Runtime}.

(** The inner function [wrap] of [attributes].  When [_transform_attrs]
    raises, the class it had begun to change is dropped with the class
    statement. *)
Definition wrap (k : decorator_args) (cl : pyclass) (w : world)
  : outcome pyclass * world :=
  match _transform_attrs cl with
  | (Raise e, _) => (Raise e, w)
  | (Return _, cl) =>
      match
        cl ← (if negb (dec_no_repr k) then _add_repr cl None else Return cl);
        cl ← (if negb (dec_no_cmp k) then _add_cmp cl None else Return cl);
        (if negb (dec_no_hash k) then _add_hash cl None else Return cl)
      with
      | Raise e => (Raise e, w)
      | Return cl =>
          if negb (dec_no_init k) then _add_init cl w else (Return cl, w)
      end
  end.

(** What [attributes] returns: the decorated class when it is handed a
    class, the decorator [wrap] otherwise. *)
Inductive attributes_result : Type :=
| Decorated (r : outcome pyclass)
| Decorator (f : pyclass -> world -> outcome pyclass * world).

(** [attributes(maybe_cl=None, no_repr=False, ...)]; [maybe_cl] is [Some cl]
    when [isinstance(maybe_cl, type)]. *)
Definition attributes (maybe_cl : option pyclass) (k : decorator_args)
    (w : world) : attributes_result * world :=
  match maybe_cl with
  | Some cl => let '(r, w') := wrap k cl w in (Decorated r, w')
  | None => (Decorator (wrap k), w)
  end.

(** The [attrs] argument of [make_class]. *)
Inductive make_class_attrs : Type :=
| AttrsDict (d : list (string * member))
| AttrsList (names : list string)
| AttrsOther.

(** [dict((a, attr()) for a in attrs)] *)
Fixpoint attr_for_each (names : list string) (d : list (string * member))
    (w : world) : list (string * member) * world :=
  match names with
  | [] => (d, w)
  | a :: names' =>
      let '(ca, w') := attr attr_defaults w in
      attr_for_each names' (dict_set d a (MCounting ca)) w'
  end.

(** [make_class(name, attrs, **attributes_arguments)]; [fresh] is the
    identity of the class that [type(name, (object,), cl_dict)] creates. *)
Definition make_class (fresh : nat) (name : string) (attrs : make_class_attrs)
    (k : decorator_args) (w : world) : outcome pyclass * world :=
  match attrs with
  | AttrsOther => (Raise TypeError, w)
  | AttrsDict d =>
      wrap k {| cls_id := fresh; __name__ := name; cls_base := None;
                __dict__ := d |} w
  | AttrsList names =>
      let '(d, w') := attr_for_each names [] w in
      wrap k {| cls_id := fresh; __name__ := name; cls_base := None;
                __dict__ := d |} w'
  end.

End Decorator.

(** Which function, if any, a class dictionary holds under a name. *)
Definition own_method (cl : pyclass) (key : string) : option method :=
  match dict_get (__dict__ cl) key with
  | Some (MMethod m) => Some m
  | _ => None
  end.

(** ** The objects the module body creates *)

(** [Attribute._attributes] *)
Definition _attributes : list string :=
  ["name"; "default"; "validator"; "no_repr"; "no_cmp"; "no_hash"; "no_init"].

(** The loop [for a in Attribute._attributes: setattr(self, a, kw[a])] of
    [Attribute.__init__], inside its [try]: the [KeyError] of a missing
    keyword is answered with a [TypeError].  The instance dictionary is
    returned with the outcome: what was set before the error stays set. *)
Fixpoint Attribute_setattrs (names : list string) (kw : list (string * value))
    (self : gmap string value) : outcome unit * gmap string value :=
  match names with
  | [] => (Return tt, self)
  | a :: names' =>
      match dict_get kw a with
      | Some v => Attribute_setattrs names' kw (<[a := v]> self)
      | None => (Raise TypeError, self)
      end
  end.

(** [Attribute.__init__(self, **kw)], on the instance dictionary of [self]. *)
Definition Attribute__init__ (kw : list (string * value))
    (self : gmap string value) : outcome unit * gmap string value :=
  if (length _attributes <? length kw)%nat then (Raise TypeError, self)
  else Attribute_setattrs _attributes kw self.

(** The keywords [Attribute.from_counting_attr(name, ca)] calls the class
    with: [name=name] and
    [dict((k, getattr(ca, k)) for k in Attribute._attributes if k != "name")]. *)
Definition from_counting_attr_kw (name : string) (ca : instance)
  : outcome (list (string * value)) :=
  rest ← mapM (fun k => v ← getattr ca k; Return (k, v))
              (List.filter (fun k => negb (String.eqb k "name")) _attributes);
  Return (("name", VStr name) :: rest).

(** [_a = [Attribute(name=name, default=NOTHING, validator=None,
           no_repr=False, no_cmp=False, no_hash=False, no_init=False)
           for name in Attribute._attributes]] *)
Definition _a : list Attribute.t :=
  List.map (fun name => Attribute.mk name NOTHING VNone false false false false)
    _attributes.

(** [Attribute = _add_hash(_add_cmp(_add_repr(Attribute, attrs=_a),
                                     attrs=_a), attrs=_a)] *)
Definition Attribute_with_methods (cl : pyclass) : outcome pyclass :=
  cl ← _add_repr cl (Some _a);
  cl ← _add_cmp cl (Some _a);
  _add_hash cl (Some _a).

(** [_CountingAttr.__attrs_attrs__], as the class body writes it. *)
Definition _CountingAttr_attrs : list Attribute.t :=
  List.map (fun name => Attribute.mk name NOTHING VNone false false false false)
    ["counter"; "default"; "no_repr"; "no_cmp"; "no_hash"; "no_init"].

(** [_CountingAttr = _add_cmp(_add_repr(_CountingAttr))] *)
Definition _CountingAttr_with_methods (cl : pyclass) : outcome pyclass :=
  cl ← _add_repr cl None;
  _add_cmp cl None.

(** The instance dictionary of a [_CountingAttr], in the order in which
    [_CountingAttr.__init__] assigns the fields. *)
Definition _CountingAttr_dict (ca : _CountingAttr.t) : gmap string value :=
  <["no_init" := VBool (_CountingAttr.no_init ca)]>
  (<["no_hash" := VBool (_CountingAttr.no_hash ca)]>
  (<["no_cmp" := VBool (_CountingAttr.no_cmp ca)]>
  (<["no_repr" := VBool (_CountingAttr.no_repr ca)]>
  (<["validator" := _CountingAttr.validator ca]>
  (<["default" := _CountingAttr.default ca]>
  (<["counter" := VInt (Z.of_nat (_CountingAttr.counter ca))]> ∅)))))).

Section ModuleBody.
Context `{Runtime}.

(** The class statement of [Factory] under [@attributes]: the body
    evaluates [factory = attr()], and the decorator is handed the class;
    [id] is the identity of the new class and [doc] its docstring. *)
Definition Factory (id : nat) (doc : string) (w : world)
  : attributes_result * world :=
  let '(ca, w1) := attr attr_defaults w in
  attributes
    (Some {| cls_id := id; __name__ := "Factory"; cls_base := None;
             __dict__ := [("__doc__", MValue (VStr doc));
                          ("factory", MCounting ca)] |})
    {| dec_no_repr := false; dec_no_cmp := false;
       dec_no_hash := false; dec_no_init := false |} w1.

End ModuleBody.

(** ** Notions used to state the properties *)

(** The attributes a generated method ranges over:
    [[a for a in cl.__attrs_attrs__ if not a.flag]]. *)
Definition included (flag : Attribute.t -> bool) (attrs : list Attribute.t)
  : list Attribute.t :=
  List.filter (fun a => negb (flag a)) attrs.

(** The name under which [_add_cmp] installs each closure. *)
Definition cmp_name (op : cmp_op) : string :=
  match op with
  | CmpEq => "__eq__" | CmpNe => "__ne__" | CmpLt => "__lt__"
  | CmpLe => "__le__" | CmpGt => "__gt__" | CmpGe => "__ge__"
  end.

(** A class dictionary binds each name once. *)
Definition is_dict {A} (d : list (string * A)) : Prop :=
  NoDup (List.map fst d).

(** A class body that evaluates [name = attr(...)] for each declaration, in
    order. *)
Fixpoint declare (decls : list (string * attr_args)) (w : world)
  : list (string * _CountingAttr.t) * world :=
  match decls with
  | [] => ([], w)
  | (n, k) :: rest =>
      let '(ca, w1) := attr k w in
      let '(cas, w2) := declare rest w1 in
      ((n, ca) :: cas, w2)
  end.

(** The attributes of a class in the order of their counters, as
    [_transform_attrs] visits them. *)
Definition to_attribute (e : string * _CountingAttr.t) : Attribute.t :=
  Attribute.from_counting_attr e.1 e.2.

Definition declared (cl : pyclass) : list Attribute.t :=
  List.map to_attribute
    (sorted_by_counter
       (counting_items (class_setattr cl "__attrs_attrs__" (MAttrsList [])))).






(** The class after each of the four steps of [wrap] that a flag can
    switch off, given the attributes [l] of the class. *)
Definition install_repr (l : list Attribute.t) (cl : pyclass) : pyclass :=
  class_setattr cl "__repr__" (MMethod (GenRepr (included Attribute.no_repr l))).

Definition install_cmp (l : list Attribute.t) (cl : pyclass) : pyclass :=
  let attrs := included Attribute.no_cmp l in
  let cl := class_setattr cl "__eq__" (MMethod (GenCmp CmpEq attrs)) in
  let cl := class_setattr cl "__ne__" (MMethod (GenCmp CmpNe attrs)) in
  let cl := class_setattr cl "__lt__" (MMethod (GenCmp CmpLt attrs)) in
  let cl := class_setattr cl "__le__" (MMethod (GenCmp CmpLe attrs)) in
  let cl := class_setattr cl "__gt__" (MMethod (GenCmp CmpGt attrs)) in
  class_setattr cl "__ge__" (MMethod (GenCmp CmpGe attrs)).

Definition install_hash (l : list Attribute.t) (cl : pyclass) : pyclass :=
  class_setattr cl "__hash__" (MMethod (GenHash (included Attribute.no_hash l))).

Definition install_init (l : list Attribute.t) (cl : pyclass) : pyclass :=
  class_setattr cl "__init__" (MMethod (GenInit (included Attribute.no_init l))).

Definition installed (k : decorator_args) (l : list Attribute.t)
    (cl : pyclass) : pyclass :=
  let cl := if dec_no_repr k then cl else install_repr l cl in
  let cl := if dec_no_cmp k then cl else install_cmp l cl in
  let cl := if dec_no_hash k then cl else install_hash l cl in
  if dec_no_init k then cl else install_init l cl.

(** Strictly growing counters. *)
Definition counter_lt (x y : string * _CountingAttr.t) : Prop :=
  (_CountingAttr.counter x.2 < _CountingAttr.counter y.2)%nat.

(** The name of the parameter of an attribute: [a.name.lstrip("_")]. *)
Definition arg_name (a : Attribute.t) : string :=
  lstrip_underscores (Attribute.name a).








(** A string without a newline character. *)
Definition no_newline (s : string) : bool :=
  all_chars (fun c => negb (Ascii.eqb c "010"%char)) s.

(** A class none of whose own members is a [_CountingAttr]. *)
Definition no_counting (cl : pyclass) : Prop :=
  forall n ca, ~ In (n, MCounting ca) (__dict__ cl).

(** The instance dictionary of an [Attribute], as [Attribute.__init__]
    fills it from the seven keywords. *)
Definition Attribute_dict (a : Attribute.t) : gmap string value :=
  <["no_init" := VBool (Attribute.no_init a)]>
  (<["no_hash" := VBool (Attribute.no_hash a)]>
  (<["no_cmp" := VBool (Attribute.no_cmp a)]>
  (<["no_repr" := VBool (Attribute.no_repr a)]>
  (<["validator" := Attribute.validator a]>
  (<["default" := Attribute.default a]>
  (<["name" := VStr (Attribute.name a)]> ∅)))))).


(** ** A concrete runtime and concrete classes *)

Module Demo.

(** The user callables of the examples: [0] is [list], [1] a validator that
    accepts every value, [2] a validator that accepts integers only, [3] a
    validator that rejects every value. *)
Definition demo_call (f : nat) (args : list value) : outcome value :=
  match f, args with
  | 0%nat, [] => Return (VList [])
  | 1%nat, [_; _] => Return VNone
  | 2%nat, [_; VInt _] => Return VNone
  | 2%nat, [_; _] => Raise TypeError
  | 3%nat, [_; _] => Raise (UserError 3)
  | _, _ => Raise TypeError
  end.

(** Lexicographic order of tuples of integers. *)
Fixpoint demo_lt (xs ys : list value) : outcome bool :=
  match xs, ys with
  | [], [] => Return false
  | [], _ :: _ => Return true
  | _ :: _, [] => Return false
  | VInt x :: xs', VInt y :: ys' =>
      if Z.eqb x y then demo_lt xs' ys' else Return (Z.ltb x y)
  | _, _ => Raise TypeError
  end.

Definition demo_order (op : order_op) (xs ys : list value) : outcome bool :=
  match op with
  | OpLt => demo_lt xs ys
  | OpGt => demo_lt ys xs
  | OpLe => b ← demo_lt ys xs; Return (negb b)
  | OpGe => b ← demo_lt xs ys; Return (negb b)
  end.

(** A Python 3 runtime.  The stand-in for SHA-1 is the length of the text,
    which keeps the file names of the examples short. *)
Definition py3 : Runtime := {|
  python3 := true;
  call_function := demo_call;
  hash_none := 0;
  hash_int := fun n => n;
  hash_str := fun s => Z.of_nat (String.length s);
  hash_tuple := fun hs => fold_right (fun h acc => h + 31 * acc) 7 hs;
  hash_id := fun oid => Z.of_nat oid;
  repr_int := fun n => NilEmpty.string_of_int (Z.to_int n);
  repr_str := fun s => "'" +:+ s +:+ "'";
  repr_function := fun f => "<function " +:+ NilEmpty.string_of_uint (Nat.to_uint f) +:+ ">";
  repr_object := fun oid => "<object " +:+ NilEmpty.string_of_uint (Nat.to_uint oid) +:+ ">";
  order_tuples := demo_order;
  sha1_hexdigest := fun s => NilEmpty.string_of_uint (Nat.to_uint (String.length s));
|}.

Definition attribute (name : string) (default validator : value) : Attribute.t :=
  {| Attribute.name := name; Attribute.default := default;
     Attribute.validator := validator;
     Attribute.no_repr := false; Attribute.no_cmp := false;
     Attribute.no_hash := false; Attribute.no_init := false |}.

(** [x = attr(); y = attr(default=None); z = attr(default=Factory(list))] *)
Definition xyz : list Attribute.t :=
  [attribute "x" NOTHING VNone;
   attribute "y" VNone VNone;
   attribute "z" (VFactory (VFunction 0)) VNone].

Definition empty_class (id : nat) (name : string) : pyclass :=
  {| cls_id := id; __name__ := name; cls_base := None; __dict__ := [] |}.

Definition new_instance (cl : pyclass) : instance :=
  {| inst_class := cl; inst_dict := ∅ |}.

(** A class body with three declarations, and the class it produces; the
    dictionary lists the names in another order than the body does. *)
Definition point_decls : list (string * attr_args) :=
  [("x", attr_defaults);
   ("y", {| arg_default := VInt 0; arg_validator := VNone;
            arg_no_repr := false; arg_no_cmp := false;
            arg_no_hash := false; arg_no_init := false |});
   ("tags", {| arg_default := VFactory (VFunction 0); arg_validator := VNone;
               arg_no_repr := true; arg_no_cmp := true;
               arg_no_hash := true; arg_no_init := false |})].

Definition world0 : world := initial_world ∅.

Definition point_body : list (string * _CountingAttr.t) :=
  (declare point_decls world0).1.

Definition world1 : world := (declare point_decls world0).2.

Definition Point0 : pyclass :=
  {| cls_id := 1; __name__ := "Point"; cls_base := None;
     __dict__ := ("__doc__", MValue VNone)
                 :: List.map (fun e => (e.1, MCounting e.2)) (rev point_body) |}.

Definition Point1 : pyclass := (_transform_attrs Point0).2.

Definition all_methods : decorator_args :=
  {| dec_no_repr := false; dec_no_cmp := false;
     dec_no_hash := false; dec_no_init := false |}.

Definition Point : pyclass :=
  match @wrap py3 all_methods Point0 world1 with
  | (Return cl, _) => cl
  | _ => Point0
  end.

Definition world2 : world := (@wrap py3 all_methods Point0 world1).2.

(** A Python 2 runtime: as [py3], but instances of a class with [__eq__]
    and no [__hash__] are hashed by identity. *)
Definition py2 : Runtime := {|
  python3 := false;
  call_function := demo_call;
  hash_none := 0;
  hash_int := fun n => n;
  hash_str := fun s => Z.of_nat (String.length s);
  hash_tuple := fun hs => fold_right (fun h acc => h + 31 * acc) 7 hs;
  hash_id := fun oid => Z.of_nat oid;
  repr_int := fun n => NilEmpty.string_of_int (Z.to_int n);
  repr_str := fun s => "'" +:+ s +:+ "'";
  repr_function := fun f => "<function " +:+ NilEmpty.string_of_uint (Nat.to_uint f) +:+ ">";
  repr_object := fun oid => "<object " +:+ NilEmpty.string_of_uint (Nat.to_uint oid) +:+ ">";
  order_tuples := demo_order;
  sha1_hexdigest := fun s => NilEmpty.string_of_uint (Nat.to_uint (String.length s));
|}.

(** A class with the single declaration [a = attr()], and its instances
    [Box(v)]. *)
Definition Box0 : pyclass :=
  {| cls_id := 2; __name__ := "Box"; cls_base := None;
     __dict__ := [("a", MCounting (attr attr_defaults world2).1)] |}.

Definition world3 : world := (attr attr_defaults world2).2.

Definition Box : pyclass :=
  match @wrap py3 all_methods Box0 world3 with
  | (Return cl, _) => cl
  | _ => Box0
  end.

Definition world4 : world := (@wrap py3 all_methods Box0 world3).2.

Definition box_attrs : list Attribute.t := [attribute "a" NOTHING VNone].

Definition box (v : value) : instance :=
  (@generated_init py3 box_attrs (new_instance Box) [v] []).2.

(** [x = attr(validator=<integers only>); _y = attr(default=7);
     z = attr(default=Factory(list))] *)
Definition checked : list Attribute.t :=
  [attribute "x" NOTHING (VFunction 2);
   attribute "_y" (VInt 7) VNone;
   attribute "z" (VFactory (VFunction 0)) VNone].


(** [_x = attr(validator=<accepts everything>)] *)
Definition private_checked : list Attribute.t :=
  [attribute "_x" NOTHING (VFunction 1)].

(** [x = attr(); _x = attr()] *)
Definition clashing : list Attribute.t :=
  [attribute "x" NOTHING VNone; attribute "_x" NOTHING VNone].

(** The class whose body is [x = attr(); _x = attr()]. *)
Definition Clash0 : pyclass :=
  {| cls_id := 3; __name__ := "Clash"; cls_base := None;
     __dict__ := List.map (fun e => (e.1, MCounting e.2))
                   (declare [("x", attr_defaults); ("_x", attr_defaults)]
                      world4).1 |}.

(** [Point1] with the generated [__init__] added. *)
Definition Point2 : pyclass :=
  match @_add_init py3 Point1 world1 with
  | (Return cl, _) => cl
  | _ => Point1
  end.

Definition world1' : world := (@_add_init py3 Point1 world1).2.

End Demo.

(** * Properties *)

(** ** The sentinel *)





(** ** Comparison methods *)

Section CmpProperties.
Context `{Runtime}.

Lemma bind_Return {A B} (m : outcome A) (f : A -> outcome B) (b : B) :
  m ≫= f = Return b -> exists a, m = Return a /\ f a = Return b.
Proof. destruct m as [a|e]; simpl; [eauto | discriminate]. Qed.




End CmpProperties.

(** ** Class dictionaries *)

Lemma dict_get_set {A} (d : list (string * A)) k x k' :
  dict_get (dict_set d k x) k'
  = if String.eqb k k' then Some x else dict_get d k'.
Proof.
  induction d as [|[k0 y] d IH]; simpl.
  - reflexivity.
  - destruct (String.eqb k0 k) eqn:E0; simpl.
    + apply String.eqb_eq in E0. subst k0. now destruct (String.eqb k k').
    + destruct (String.eqb k0 k') eqn:E1; [|apply IH].
      apply String.eqb_eq in E1. subst k0. now rewrite String.eqb_sym, E0.
Qed.

Lemma dict_get_In {A} (d : list (string * A)) k x :
  is_dict d -> In (k, x) d -> dict_get d k = Some x.
Proof.
  unfold is_dict. induction d as [|[k0 y] d IH]; simpl; [tauto|].
  intros ND [E|I].
  - inversion E; subst. now rewrite String.eqb_refl.
  - apply NoDup_cons in ND as [N ND].
    destruct (String.eqb k0 k) eqn:E0; [|now apply IH].
    apply String.eqb_eq in E0. subst k0. exfalso. apply N.
    apply list_elem_of_In. change k with (fst (k, x)). now apply in_map.
Qed.

Lemma dict_set_keys {A} (d : list (string * A)) k x :
  List.map fst (dict_set d k x)
  = if mem_string k (List.map fst d) then List.map fst d
    else List.map fst d ++ [k].
Proof.
  unfold mem_string.
  induction d as [|[k0 y] d IH]; simpl; [reflexivity|].
  rewrite (String.eqb_sym k k0).
  destruct (String.eqb k0 k) eqn:E0; simpl; [reflexivity|].
  rewrite IH. now destruct (existsb (String.eqb k) (List.map fst d)).
Qed.

Lemma mem_string_In x l : mem_string x l = true <-> In x l.
Proof.
  unfold mem_string. rewrite existsb_exists. split.
  - intros (y & I & E). apply String.eqb_eq in E. now subst.
  - intros I. exists x. split; [assumption|apply String.eqb_refl].
Qed.

Lemma is_dict_set {A} (d : list (string * A)) k x :
  is_dict d -> is_dict (dict_set d k x).
Proof.
  unfold is_dict. intros ND. rewrite dict_set_keys.
  destruct (mem_string k (List.map fst d)) eqn:E; [assumption|].
  apply NoDup_app. repeat split; [assumption| |apply NoDup_singleton].
  intros y Iy Iy'. apply list_elem_of_In in Iy, Iy'.
  destruct Iy' as [<-|[]].
  apply mem_string_In in Iy. congruence.
Qed.

(** ** Sorting by counter *)

Definition counter_le (x y : string * _CountingAttr.t) : Prop :=
  (_CountingAttr.counter x.2 <= _CountingAttr.counter y.2)%nat.

Lemma insert_by_counter_perm e l :
  Permutation (insert_by_counter e l) (e :: l).
Proof.
  induction l as [|e' l IH]; simpl; [reflexivity|].
  destruct (Nat.leb _ _); [reflexivity|].
  rewrite IH. apply perm_swap.
Qed.

Lemma sorted_by_counter_perm l : Permutation (sorted_by_counter l) l.
Proof.
  induction l as [|e l IH]; simpl; [reflexivity|].
  rewrite insert_by_counter_perm. now apply perm_skip.
Qed.

Lemma insert_by_counter_sorted e l :
  StronglySorted counter_le l -> StronglySorted counter_le (insert_by_counter e l).
Proof.
  induction l as [|e' l IH]; simpl; intros S.
  - repeat constructor.
  - apply StronglySorted_inv in S as [S F].
    destruct (Nat.leb _ _) eqn:E.
    + apply Nat.leb_le in E. constructor; [now constructor|].
      constructor; [exact E|].
      eapply List.Forall_impl; [|exact F]. unfold counter_le in *. intros; simpl in *; lia.
    + apply Nat.leb_gt in E. constructor; [now apply IH|].
      eapply Permutation_Forall; [symmetry; apply insert_by_counter_perm|].
      constructor; [unfold counter_le; lia|exact F].
Qed.

Lemma sorted_by_counter_sorted l : StronglySorted counter_le (sorted_by_counter l).
Proof.
  induction l as [|e l IH]; simpl; [constructor|].
  now apply insert_by_counter_sorted.
Qed.

(** A list can be sorted by a key without repetition in one way only. *)
Lemma sorted_perm_unique (l1 l2 : list (string * _CountingAttr.t)) :
  StronglySorted counter_le l1 -> StronglySorted counter_le l2 ->
  NoDup (List.map (fun e => _CountingAttr.counter e.2) l2) ->
  Permutation l1 l2 -> l1 = l2.
Proof.
  revert l2. induction l1 as [|a l1 IH]; intros l2 S1 S2 ND P.
  - now apply Permutation_nil in P.
  - destruct l2 as [|b l2]; [now apply Permutation_sym, Permutation_nil in P|].
    apply StronglySorted_inv in S1 as [S1 F1].
    apply StronglySorted_inv in S2 as [S2 F2].
    simpl in ND. apply NoDup_cons in ND as [Nb ND].
    assert (E : a = b).
    { assert (Ia : In a (b :: l2))
        by (eapply Permutation_in; [exact P|now left]).
      assert (Ib : In b (a :: l1))
        by (eapply Permutation_in; [symmetry; exact P|now left]).
      destruct Ia as [->|Ia]; [reflexivity|].
      destruct Ib as [->|Ib]; [reflexivity|].
      rewrite List.Forall_forall in F1, F2.
      pose proof (F1 _ Ib) as L1. pose proof (F2 _ Ia) as L2.
      unfold counter_le in L1, L2. exfalso. apply Nb.
      apply list_elem_of_In.
      replace (_CountingAttr.counter b.2) with (_CountingAttr.counter a.2) by lia.
      now apply (in_map (fun e => _CountingAttr.counter e.2)). }
    subst b. f_equal. apply IH; try assumption.
    now apply Permutation_cons_inv in P.
Qed.

(** ** What [_transform_attrs] leaves in the class *)

Lemma counting_items_In cl n ca :
  In (n, ca) (counting_items cl) <-> In (n, MCounting ca) (__dict__ cl).
Proof.
  unfold counting_items. rewrite <- !list_elem_of_In, list_elem_of_omap.
  split.
  - intros ([k m] & I & E). simpl in E. destruct m; try discriminate.
    now inversion E; subst.
  - intros I. now exists (n, MCounting ca).
Qed.

Lemma transform_loop_dict items : forall hd cl cl' l0,
  transform_loop items hd cl = (Return tt, cl') ->
  dict_get (__dict__ cl) "__attrs_attrs__" = Some (MAttrsList l0) ->
  List.Forall (fun e => e.1 <> "__attrs_attrs__") items ->
  dict_get (__dict__ cl') "__attrs_attrs__"
  = Some (MAttrsList (l0 ++ List.map to_attribute items))
  /\ (forall key, key <> "__attrs_attrs__" ->
        if mem_string key (List.map fst items)
        then exists a, dict_get (__dict__ cl') key = Some (MAttribute a)
        else dict_get (__dict__ cl') key = dict_get (__dict__ cl) key)
  /\ cls_id cl' = cls_id cl /\ __name__ cl' = __name__ cl
  /\ cls_base cl' = cls_base cl
  /\ (is_dict (__dict__ cl) -> is_dict (__dict__ cl')).
Proof.
  induction items as [|[n ca] items IH]; simpl; intros hd cl cl' l0 T G F.
  - inversion T; subst. rewrite app_nil_r. repeat split; auto.
  - apply Forall_cons in F as [Fn F]. simpl in Fn.
    destruct (hd && py_is _ NOTHING); [discriminate|].
    unfold attrs_append in T. rewrite G in T.
    apply IH with (l0 := l0 ++ [Attribute.from_counting_attr n ca]) in T;
      [|simpl; rewrite !dict_get_set; simpl;
        destruct (String.eqb n "__attrs_attrs__") eqn:E;
        [apply String.eqb_eq in E; congruence|reflexivity]
       |assumption].
    destruct T as (T1 & T2 & T3 & T4 & T5 & T6).
    rewrite <- app_assoc in T1. cbn [app List.map] in T1.
    split; [exact T1|]. split; [|repeat split; auto].
    + intros key K. specialize (T2 key K).
      unfold mem_string in *. cbn [List.map fst existsb].
      destruct (existsb (String.eqb key) (List.map fst items)) eqn:E.
      * rewrite orb_true_r. exact T2.
      * rewrite orb_false_r. rewrite T2.
        cbn [__dict__ class_setattr]. rewrite !dict_get_set.
        rewrite (String.eqb_sym key n).
        destruct (String.eqb n key); [eauto|].
        destruct (String.eqb_spec "__attrs_attrs__" key);
          [congruence|reflexivity].
    + intros D. apply T6. now do 2 apply is_dict_set.
Qed.

(** ** The order of defaults *)








(** ** What the decorator leaves in the class *)

Lemma class_getattr_own cl key m :
  dict_get (__dict__ cl) key = Some m -> class_getattr cl key = Some m.
Proof. destruct cl; simpl. now intros ->. Qed.

Lemma attrs_attrs_own cl l :
  dict_get (__dict__ cl) "__attrs_attrs__" = Some (MAttrsList l) ->
  __attrs_attrs__ cl = Return l.
Proof.
  intros E. unfold __attrs_attrs__. now rewrite (class_getattr_own _ _ _ E).
Qed.

Lemma transform_attrs_ok cl cl' :
  is_dict (__dict__ cl) ->
  _transform_attrs cl = (Return tt, cl') ->
  dict_get (__dict__ cl') "__attrs_attrs__" = Some (MAttrsList (declared cl))
  /\ (forall key, key <> "__attrs_attrs__" ->
        own_method cl' key = own_method cl key)
  /\ (forall key, key <> "__attrs_attrs__" ->
        mem_string key (List.map Attribute.name (declared cl)) = false ->
        dict_get (__dict__ cl') key = dict_get (__dict__ cl) key)
  /\ (forall a, In a (declared cl) ->
        exists a', dict_get (__dict__ cl') (Attribute.name a)
                   = Some (MAttribute a'))
  /\ cls_id cl' = cls_id cl /\ __name__ cl' = __name__ cl
  /\ cls_base cl' = cls_base cl
  /\ is_dict (__dict__ cl').
Proof.
  intros D T. unfold _transform_attrs in T.
  set (cl0 := class_setattr cl "__attrs_attrs__" (MAttrsList [])) in *.
  assert (D0 : is_dict (__dict__ cl0)) by now apply is_dict_set.
  assert (G0 : dict_get (__dict__ cl0) "__attrs_attrs__" = Some (MAttrsList []))
    by (unfold cl0; simpl; now rewrite dict_get_set).
  assert (I0 : forall n ca,
             In (n, ca) (sorted_by_counter (counting_items cl0)) ->
             dict_get (__dict__ cl0) n = Some (MCounting ca)).
  { intros n ca I. apply dict_get_In; [assumption|].
    apply counting_items_In.
    eapply Permutation_in; [apply sorted_by_counter_perm|exact I]. }
  assert (O0 : forall key, key <> "__attrs_attrs__" ->
             dict_get (__dict__ cl0) key = dict_get (__dict__ cl) key).
  { intros key K. unfold cl0. simpl. rewrite dict_get_set.
    destruct (String.eqb_spec "__attrs_attrs__" key); congruence. }
  assert (N0 : forall key,
             mem_string key
               (List.map fst (sorted_by_counter (counting_items cl0)))
             = mem_string key (List.map Attribute.name (declared cl))).
  { intros key. unfold declared. fold cl0.
    now rewrite List.map_map. }
  apply transform_loop_dict with (l0 := []) in T; [|assumption|].
  - destruct T as (T1 & T2 & T3 & T4 & T5 & T6). simpl in T1.
    split; [exact T1|]. split; [|split; [|split]].
    + intros key K. specialize (T2 key K). unfold own_method.
      destruct (mem_string key _) eqn:E.
      * destruct T2 as [a ->]. apply mem_string_In in E.
        apply in_map_iff in E as ([n ca] & <- & I). simpl.
        rewrite <- O0, (I0 _ _ I); [reflexivity|]. simpl in K. exact K.
      * now rewrite T2, O0.
    + intros key K E. specialize (T2 key K). rewrite N0, E in T2.
      now rewrite T2, O0.
    + intros a I. unfold declared in I. fold cl0 in I.
      apply in_map_iff in I as ([n ca] & <- & I). simpl.
      assert (K : n <> "__attrs_attrs__").
      { intros ->. apply I0 in I. congruence. }
      specialize (T2 n K).
      replace (mem_string n _) with true in T2; [exact T2|].
      symmetry. apply mem_string_In.
      change n with (fst (n, ca)). now apply in_map.
    + repeat split; auto.
  - apply List.Forall_forall. intros [n ca] I E. simpl in E. subst n.
    apply I0 in I. congruence.
Qed.

Section DecoratorProperties.
Context `{Runtime}.

Lemma add_repr_ok cl l :
  dict_get (__dict__ cl) "__attrs_attrs__" = Some (MAttrsList l) ->
  _add_repr cl None = Return (install_repr l cl).
Proof.
  intros E. unfold _add_repr, attrs_or_default.
  now rewrite (attrs_attrs_own _ _ E).
Qed.

Lemma add_cmp_ok cl l :
  dict_get (__dict__ cl) "__attrs_attrs__" = Some (MAttrsList l) ->
  _add_cmp cl None = Return (install_cmp l cl).
Proof.
  intros E. unfold _add_cmp, attrs_or_default.
  now rewrite (attrs_attrs_own _ _ E).
Qed.

Lemma add_hash_ok cl l :
  dict_get (__dict__ cl) "__attrs_attrs__" = Some (MAttrsList l) ->
  _add_hash cl None = Return (install_hash l cl).
Proof.
  intros E. unfold _add_hash, attrs_or_default.
  now rewrite (attrs_attrs_own _ _ E).
Qed.

Lemma add_init_inv cl l w r w' :
  dict_get (__dict__ cl) "__attrs_attrs__" = Some (MAttrsList l) ->
  _add_init cl w = (r, w') ->
  (exists e, r = Raise e /\ w' = w)
  \/ (r = Return (install_init l cl)
      /\ returns (compile (script_ast (included Attribute.no_init l)))
      /\ CountingAttr_counter w' = CountingAttr_counter w
      /\ exists entry,
          linecache_cache w'
          = <["<attrs generated init "
              +:+ sha1_hexdigest (repr_attrs (included Attribute.no_init l))
              +:+ ">" := entry]> (linecache_cache w)).
Proof.
  intros E. unfold _add_init. rewrite (attrs_attrs_own _ _ E).
  fold (included Attribute.no_init l).
  destruct (compile (script_ast (included Attribute.no_init l))) as [fd|e] eqn:C;
    simpl.
  - destruct (eval_defaults _ _) as [ps|e]; intros T; inversion T; subst.
    + right. repeat split; eauto. now exists fd.
    + left. eauto.
  - intros T; inversion T; subst. left. eauto.
Qed.

Lemma install_attrs_attrs k l cl :
  dict_get (__dict__ (installed k l cl)) "__attrs_attrs__"
  = dict_get (__dict__ cl) "__attrs_attrs__".
Proof.
  unfold installed, install_repr, install_cmp, install_hash, install_init.
  destruct (dec_no_repr k), (dec_no_cmp k), (dec_no_hash k), (dec_no_init k);
    simpl; now rewrite ?dict_get_set.
Qed.

Lemma wrap_inv k cl w cl' w' :
  is_dict (__dict__ cl) ->
  wrap k cl w = (Return cl', w') ->
  exists cl1,
    _transform_attrs cl = (Return tt, cl1)
    /\ cl' = installed k (declared cl) cl1
    /\ CountingAttr_counter w' = CountingAttr_counter w
    /\ (dec_no_init k = false ->
        returns (compile (script_ast (included Attribute.no_init (declared cl))))).
Proof.
  intros D. unfold wrap.
  destruct (_transform_attrs cl) as [[[]|e] cl1] eqn:T; [|discriminate].
  destruct (transform_attrs_ok _ _ D T) as (G & _).
  set (l := declared cl) in *.
  set (c1 := if dec_no_repr k then cl1 else install_repr l cl1).
  set (c2 := if dec_no_cmp k then c1 else install_cmp l c1).
  set (c3 := if dec_no_hash k then c2 else install_hash l c2).
  assert (G1 : dict_get (__dict__ c1) "__attrs_attrs__" = Some (MAttrsList l)).
  { unfold c1. destruct (dec_no_repr k); [assumption|].
    simpl. now rewrite dict_get_set. }
  assert (G2 : dict_get (__dict__ c2) "__attrs_attrs__" = Some (MAttrsList l)).
  { unfold c2, install_cmp. destruct (dec_no_cmp k); [assumption|].
    simpl. now rewrite !dict_get_set. }
  assert (G3 : dict_get (__dict__ c3) "__attrs_attrs__" = Some (MAttrsList l)).
  { unfold c3. destruct (dec_no_hash k); [assumption|].
    simpl. now rewrite dict_get_set. }
  replace (if negb (dec_no_repr k) then _add_repr cl1 None else Return cl1)
    with (Return c1)
    by (unfold c1; destruct (dec_no_repr k); simpl;
        [reflexivity|symmetry; now apply add_repr_ok]).
  simpl.
  replace (if negb (dec_no_cmp k) then _add_cmp c1 None else Return c1)
    with (Return c2)
    by (unfold c2; destruct (dec_no_cmp k); simpl;
        [reflexivity|symmetry; now apply add_cmp_ok]).
  simpl.
  replace (if negb (dec_no_hash k) then _add_hash c2 None else Return c2)
    with (Return c3)
    by (unfold c3; destruct (dec_no_hash k); simpl;
        [reflexivity|symmetry; now apply add_hash_ok]).
  unfold installed. fold c1 c2 c3.
  destruct (dec_no_init k) eqn:Ki; simpl.
  - intros W. inversion W; subst. exists cl1. repeat split. discriminate.
  - intros W. apply (add_init_inv _ l) in W; [|assumption].
    destruct W as [(e & ? & _)|(W1 & W2 & W3 & _)]; [discriminate|].
    inversion W1; subst. exists cl1. repeat split; auto.
Qed.

End DecoratorProperties.

Lemma own_method_set cl k m key :
  own_method (class_setattr cl k m) key
  = if String.eqb k key
    then match m with MMethod f => Some f | _ => None end
    else own_method cl key.
Proof.
  unfold own_method. simpl. rewrite dict_get_set.
  now destruct (String.eqb k key).
Qed.

(** C6. When the decorator returns, each family of methods is installed
    exactly when its flag is false: [__repr__], the six comparisons,
    [__hash__] and [__init__] are then the generated closures over the
    attributes of the class that do not set the matching attribute flag;
    with the flag true the class keeps, under those names, the functions it
    had before, whatever the other three flags are. *)
Theorem C6_decorator_installs_each_family `{Runtime}
    (k : decorator_args) (cl cl' : pyclass) (w w' : world) :
  is_dict (__dict__ cl) ->
  wrap k cl w = (Return cl', w') ->
  exists attrs,
    __attrs_attrs__ cl' = Return attrs
    /\ own_method cl' "__repr__"
       = (if dec_no_repr k then own_method cl "__repr__"
          else Some (GenRepr (included Attribute.no_repr attrs)))
    /\ (forall op,
          own_method cl' (cmp_name op)
          = if dec_no_cmp k then own_method cl (cmp_name op)
            else Some (GenCmp op (included Attribute.no_cmp attrs)))
    /\ own_method cl' "__hash__"
       = (if dec_no_hash k then own_method cl "__hash__"
          else Some (GenHash (included Attribute.no_hash attrs)))
    /\ own_method cl' "__init__"
       = (if dec_no_init k then own_method cl "__init__"
          else Some (GenInit (included Attribute.no_init attrs))).
Proof.
  intros D W.
  destruct (wrap_inv _ _ _ _ _ D W) as (cl1 & T & -> & _).
  destruct (transform_attrs_ok _ _ D T) as (G & O & _).
  exists (declared cl). split.
  { apply attrs_attrs_own. now rewrite install_attrs_attrs. }
  unfold installed, install_repr, install_cmp, install_hash, install_init.
  repeat split; try intros op;
    destruct (dec_no_repr k), (dec_no_cmp k), (dec_no_hash k), (dec_no_init k);
    try destruct op; simpl; rewrite ?own_method_set; simpl;
    try reflexivity; now apply O.
Qed.

Lemma C6_decorator_installs_each_family_witness :
  exists attrs,
    __attrs_attrs__ Demo.Point = Return attrs
    /\ own_method Demo.Point "__repr__"
       = Some (GenRepr (included Attribute.no_repr attrs))
    /\ (forall op,
          own_method Demo.Point (cmp_name op)
          = Some (GenCmp op (included Attribute.no_cmp attrs)))
    /\ own_method Demo.Point "__hash__"
       = Some (GenHash (included Attribute.no_hash attrs))
    /\ own_method Demo.Point "__init__"
       = Some (GenInit (included Attribute.no_init attrs)).
Proof.
  apply (@C6_decorator_installs_each_family Demo.py3 Demo.all_methods
           Demo.Point0 Demo.Point Demo.world1 Demo.world2).
  - apply (bool_decide_unpack _). vm_compute. exact I.
  - vm_compute. reflexivity.
Defined.

(** ** Declaration order *)

Lemma declare_counters decls : forall w cas w',
  declare decls w = (cas, w') ->
  List.map (fun e => _CountingAttr.counter e.2) cas
  = seq (S (CountingAttr_counter w)) (length decls)
  /\ List.map fst cas = List.map fst decls
  /\ CountingAttr_counter w' = (CountingAttr_counter w + length decls)%nat
  /\ linecache_cache w' = linecache_cache w.
Proof.
  induction decls as [|[n k] decls IH]; simpl; intros w cas w' E.
  - inversion E; subst. simpl. repeat split. lia.
  - destruct (declare decls _) as [cas1 w2] eqn:E1. inversion E; subst.
    apply IH in E1 as (C & N & W & L). simpl in *.
    rewrite C, N, W, L. repeat split. lia.
Qed.

Lemma seq_strictly_sorted (l : list (string * _CountingAttr.t)) : forall start,
  List.map (fun e => _CountingAttr.counter e.2) l = seq start (length l) ->
  StronglySorted counter_lt l.
Proof.
  induction l as [|a l IH]; simpl; intros start E; [constructor|].
  injection E as Ea El. constructor; [now apply (IH (S start))|].
  apply List.Forall_forall. intros b Ib.
  apply (in_map (fun e => _CountingAttr.counter e.2)) in Ib.
  rewrite El in Ib. apply in_seq in Ib. unfold counter_lt. lia.
Qed.

Lemma counting_items_reset cl :
  ~ In "__attrs_attrs__" (List.map fst (counting_items cl)) ->
  counting_items (class_setattr cl "__attrs_attrs__" (MAttrsList []))
  = counting_items cl.
Proof.
  unfold counting_items, omap. simpl. generalize (__dict__ cl) as d.
  induction d as [|[k0 m] d IH]; simpl; intros N; [reflexivity|].
  destruct (String.eqb_spec k0 "__attrs_attrs__") as [->|Ne]; simpl.
  - destruct m; try reflexivity. exfalso. apply N. now left.
  - destruct m; simpl in *;
      first [ apply IH; exact N
            | f_equal; apply IH; intros I; apply N; now right ].
Qed.

(** C2. For a class whose [_CountingAttr] members are those a class body
    made by calling [attr] for one name after the other, in whatever order
    the class dictionary lists them, [_transform_attrs] leaves in
    [__attrs_attrs__] exactly these members, converted to [Attribute]s, in
    the order of the calls: each call takes the next value of the counter,
    so the counters grow strictly and sorting by them restores the order of
    declaration.  (The name [__attrs_attrs__] itself, which
    [_transform_attrs] overwrites before it collects the members, is
    assumed not to be declared as an attribute.) *)
Theorem C2_attrs_attrs_in_declaration_order
    (w w' : world) (decls : list (string * attr_args))
    (cas : list (string * _CountingAttr.t)) (cl cl' : pyclass) :
  declare decls w = (cas, w') ->
  is_dict (__dict__ cl) ->
  Permutation (counting_items cl) cas ->
  ~ In "__attrs_attrs__" (List.map fst decls) ->
  _transform_attrs cl = (Return tt, cl') ->
  __attrs_attrs__ cl' = Return (List.map to_attribute cas)
  /\ List.map Attribute.name (List.map to_attribute cas) = List.map fst decls
  /\ StronglySorted counter_lt cas
  /\ List.map (fun e => _CountingAttr.counter e.2) cas
     = seq (S (CountingAttr_counter w)) (length decls).
Proof.
  intros E D P N T.
  destruct (declare_counters _ _ _ _ E) as (C & Nm & _).
  assert (Len : length cas = length decls)
    by (rewrite <- (length_map fst cas), Nm; apply length_map).
  assert (S : StronglySorted counter_lt cas)
    by (apply (seq_strictly_sorted _ (S (CountingAttr_counter w)));
        now rewrite Len).
  destruct (transform_attrs_ok _ _ D T) as (G & _).
  unfold declared in G. rewrite counting_items_reset in G.
  2:{ intros I. apply N. rewrite <- Nm.
      eapply Permutation_in; [|exact I]. now apply Permutation_map. }
  rewrite (sorted_perm_unique (sorted_by_counter (counting_items cl)) cas) in G.
  - split; [now apply attrs_attrs_own|]. repeat split; try assumption.
    rewrite List.map_map. exact Nm.
  - apply sorted_by_counter_sorted.
  - clear -S. induction S as [|a l S IH F]; constructor; [assumption|].
    eapply List.Forall_impl; [|exact F]. unfold counter_lt, counter_le. lia.
  - rewrite C. apply NoDup_ListNoDup, seq_NoDup.
  - rewrite sorted_by_counter_perm. exact P.
Qed.

Lemma C2_attrs_attrs_in_declaration_order_witness :
  __attrs_attrs__ Demo.Point1
  = Return (List.map to_attribute Demo.point_body)
  /\ List.map Attribute.name (List.map to_attribute Demo.point_body)
     = ["x"; "y"; "tags"]
  /\ StronglySorted counter_lt Demo.point_body
  /\ List.map (fun e => _CountingAttr.counter e.2) Demo.point_body
     = [1; 2; 3]%nat.
Proof.
  apply (C2_attrs_attrs_in_declaration_order Demo.world0 Demo.world1
           Demo.point_decls Demo.point_body Demo.Point0 Demo.Point1).
  - reflexivity.
  - apply (bool_decide_unpack _). vm_compute. exact I.
  - replace (counting_items Demo.Point0) with (rev Demo.point_body)
      by (vm_compute; reflexivity).
    symmetry. apply Permutation_rev.
  - vm_compute. intuition discriminate.
  - vm_compute. reflexivity.
Defined.

(** ** Which attributes a generated method ranges over *)

Lemma mapM_Return {A B} (f : A -> outcome B) (l : list A) (t : list B) :
  mapM f l = Return t <-> Forall2 (fun a b => f a = Return b) l t.
Proof.
  revert t. induction l as [|a l IH]; intros t; simpl.
  - split.
    + intros E. inversion E. constructor.
    + intros F. inversion F. reflexivity.
  - split.
    + intros E. apply bind_Return in E as (b & Eb & E).
      apply bind_Return in E as (t' & Et & E). inversion E; subst.
      constructor; [assumption|]. now apply IH.
    + intros F. inversion F as [|? b ? t' Eb Ft]; subst.
      apply IH in Ft. rewrite Eb. simpl. rewrite Ft. reflexivity.
Qed.




Lemma script_param_name a :
  param_name (script_param a) = lstrip_underscores (Attribute.name a).
Proof. unfold script_param. now destruct (default_kind_of a). Qed.

Section InclusionProperties.
Context `{Runtime}.



End InclusionProperties.


(** ** Equality and hash *)

Lemma included_all flag attrs :
  (forall a, In a attrs -> flag a = false) -> included flag attrs = attrs.
Proof.
  unfold included. induction attrs as [|a attrs IH]; simpl; intros F;
    [reflexivity|].
  rewrite (F a) by now left. simpl. f_equal. apply IH. intros b I.
  apply F. now right.
Qed.

Lemma tuple_eq_items (xs ys : list value) :
  py_eq (VTuple xs) (VTuple ys) = true ->
  Forall2 (fun a b => py_eq a b = true) xs ys.
Proof.
  simpl. revert ys. induction xs as [|x xs IH]; intros [|y ys] E;
    try discriminate; constructor.
  - now apply andb_prop in E as [E _].
  - apply IH. now apply andb_prop in E as [_ E].
Qed.

Section HashProperties.
Context `{Runtime}.

Lemma tuple_hash_items (xs ys : list value) :
  Forall2 (fun a b => py_hash a = py_hash b) xs ys ->
  py_hash (VTuple xs) = py_hash (VTuple ys).
Proof.
  intros F. simpl. f_equal.
  induction F as [|x y xs ys E F IH]; [reflexivity|].
  rewrite E, IH. reflexivity.
Qed.

Lemma wrap_eq_hash_methods k cl cl' w w' :
  is_dict (__dict__ cl) ->
  wrap k cl w = (Return cl', w') ->
  dec_no_cmp k = false ->
  dec_no_hash k = false ->
  __attrs_attrs__ cl' = Return (declared cl)
  /\ own_method cl' "__eq__"
     = Some (GenCmp CmpEq (included Attribute.no_cmp (declared cl)))
  /\ own_method cl' "__hash__"
     = Some (GenHash (included Attribute.no_hash (declared cl))).
Proof.
  intros D W Kc Kh.
  destruct (wrap_inv _ _ _ _ _ D W) as (cl1 & T & -> & _).
  destruct (transform_attrs_ok _ _ D T) as (G & _).
  split.
  { apply attrs_attrs_own. now rewrite install_attrs_attrs. }
  unfold installed, install_repr, install_cmp, install_hash, install_init.
  rewrite Kc, Kh.
  split; destruct (dec_no_repr k), (dec_no_init k); simpl;
    rewrite ?own_method_set; reflexivity.
Qed.

(** C9 (amended).  In a class where no attribute sets [no_cmp] or
    [no_hash], the generated [__eq__] and [__hash__] are closures over the
    same attributes, so they look at the same tuple of values: whenever
    [x == y] is [True] and the values compared in each position hash alike
    when they are equal, [hash(x)] and [hash(y)] have the same outcome. *)
Theorem C9_eq_implies_same_hash_for_lawful_values
    (k : decorator_args) (cl cl' : pyclass) (w w' : world)
    (attrs : list Attribute.t) :
  is_dict (__dict__ cl) ->
  wrap k cl w = (Return cl', w') ->
  dec_no_cmp k = false ->
  dec_no_hash k = false ->
  __attrs_attrs__ cl' = Return attrs ->
  (forall a, In a attrs ->
     Attribute.no_cmp a = false /\ Attribute.no_hash a = false) ->
  own_method cl' "__eq__" = Some (GenCmp CmpEq attrs)
  /\ own_method cl' "__hash__" = Some (GenHash attrs)
  /\ forall (x y : instance) (tx ty : list value),
      Cmp.eq attrs x (OInstance y) = Return (CmpBool true) ->
      _attrs_to_tuple (OInstance x) attrs = Return tx ->
      _attrs_to_tuple (OInstance y) attrs = Return ty ->
      Forall2 (fun a b => py_eq a b = true -> py_hash a = py_hash b) tx ty ->
      hash_ attrs x = hash_ attrs y.
Proof.
  intros D W Kc Kh A F.
  destruct (wrap_eq_hash_methods k cl cl' w w' D W Kc Kh) as (A' & Hc' & Hh').
  rewrite A in A'. injection A' as E. subst attrs.
  rewrite included_all in Hc' by (intros a I; now apply F).
  rewrite included_all in Hh' by (intros a I; now apply F).
  repeat split; try assumption.
  intros x y tx ty E Tx Ty L. unfold hash_. rewrite Tx, Ty. simpl.
  unfold Cmp.eq in E. destruct (isinstance _ _); [|discriminate].
  rewrite Tx, Ty in E. simpl in E. injection E as E.
  apply tuple_eq_items in E. apply tuple_hash_items.
  clear -E L. induction E; inversion L; subst; constructor; auto.
Qed.

End HashProperties.

Lemma C9_eq_implies_same_hash_for_lawful_values_witness :
  Cmp.eq Demo.box_attrs (Demo.box (VInt 1))
    (OInstance (Demo.box (VBool true))) = Return (CmpBool true)
  /\ @hash_ Demo.py3 Demo.box_attrs (Demo.box (VInt 1))
     = @hash_ Demo.py3 Demo.box_attrs (Demo.box (VBool true)).
Proof.
  split; [vm_compute; reflexivity|].
  destruct (@C9_eq_implies_same_hash_for_lawful_values Demo.py3
              Demo.all_methods Demo.Box0 Demo.Box Demo.world3 Demo.world4
              Demo.box_attrs) as (_ & _ & K).
  - apply (bool_decide_unpack _). vm_compute. exact I.
  - vm_compute. reflexivity.
  - reflexivity.
  - reflexivity.
  - vm_compute. reflexivity.
  - intros a [<-|[]]. split; reflexivity.
  - apply (K (Demo.box (VInt 1)) (Demo.box (VBool true))
             [VInt 1] [VBool true]).
    + vm_compute. reflexivity.
    + vm_compute. reflexivity.
    + vm_compute. reflexivity.
    + constructor; [|constructor]. intros _. vm_compute. reflexivity.
Defined.

(** C9 as stated fails.  [Box(NOTHING) == Box(5)] is [True], because
    [NOTHING] compares equal to everything, but [hash(Box(NOTHING))] raises
    [TypeError] under Python 3, where [_Nothing] is unhashable, and differs
    from [hash(Box(5))] under Python 2; two boxes holding the same list are
    equal and cannot be hashed at all. *)
Lemma C9_eq_without_same_hash :
  own_method Demo.Box "__eq__" = Some (GenCmp CmpEq Demo.box_attrs)
  /\ own_method Demo.Box "__hash__" = Some (GenHash Demo.box_attrs)
  /\ Cmp.eq Demo.box_attrs (Demo.box NOTHING)
       (OInstance (Demo.box (VInt 5))) = Return (CmpBool true)
  /\ @hash_ Demo.py3 Demo.box_attrs (Demo.box NOTHING) = Raise TypeError
  /\ @hash_ Demo.py3 Demo.box_attrs (Demo.box (VInt 5)) = Return 222
  /\ @hash_ Demo.py2 Demo.box_attrs (Demo.box NOTHING) = Return 217
  /\ @hash_ Demo.py2 Demo.box_attrs (Demo.box (VInt 5)) = Return 222
  /\ Cmp.eq Demo.box_attrs (Demo.box (VList []))
       (OInstance (Demo.box (VList []))) = Return (CmpBool true)
  /\ @hash_ Demo.py3 Demo.box_attrs (Demo.box (VList [])) = Raise TypeError
  /\ ~ (forall x y : instance,
          Cmp.eq Demo.box_attrs x (OInstance y)
          = Return (CmpBool true) ->
          @hash_ Demo.py3 Demo.box_attrs x = @hash_ Demo.py3 Demo.box_attrs y).
Proof.
  do 9 (split; [vm_compute; reflexivity|]).
  intros K.
  assert (E : @hash_ Demo.py3 Demo.box_attrs (Demo.box NOTHING)
              = @hash_ Demo.py3 Demo.box_attrs (Demo.box (VInt 5)))
    by (apply K; vm_compute; reflexivity).
  vm_compute in E. discriminate.
Qed.

(** ** State outside the class *)

Section FrameProperties.
Context `{Runtime}.

Lemma add_init_frame cl w :
  CountingAttr_counter (_add_init cl w).2 = CountingAttr_counter w
  /\ ((_add_init cl w).2 = w /\ (exists e, (_add_init cl w).1 = Raise e)
      \/ exists cl' attrs entry,
          (_add_init cl w).1 = Return cl'
          /\ own_method cl' "__init__" = Some (GenInit attrs)
          /\ linecache_cache (_add_init cl w).2
             = <["<attrs generated init "
                 +:+ sha1_hexdigest (repr_attrs attrs) +:+ ">" := entry]>
                 (linecache_cache w)).
Proof.
  unfold _add_init. destruct (__attrs_attrs__ cl) as [l|e]; simpl.
  2:{ split; [reflexivity|]. left. eauto. }
  destruct (compile _) as [fd|e]; simpl.
  2:{ split; [reflexivity|]. left. eauto. }
  destruct (eval_defaults _ _) as [ps|e]; simpl.
  2:{ split; [reflexivity|]. left. eauto. }
  split; [reflexivity|]. right. do 3 eexists.
  split; [reflexivity|]. split; [|reflexivity].
  now rewrite own_method_set.
Qed.

Lemma wrap_frame k cl w :
  CountingAttr_counter (wrap k cl w).2 = CountingAttr_counter w
  /\ (linecache_cache (wrap k cl w).2 = linecache_cache w
      \/ dec_no_init k = false
         /\ exists cl' attrs entry,
             (wrap k cl w).1 = Return cl'
             /\ own_method cl' "__init__" = Some (GenInit attrs)
             /\ linecache_cache (wrap k cl w).2
                = <["<attrs generated init "
                    +:+ sha1_hexdigest (repr_attrs attrs) +:+ ">" := entry]>
                    (linecache_cache w)).
Proof.
  unfold wrap. destruct (_transform_attrs cl) as [[[]|e] cl1]; simpl; [|auto].
  match goal with |- context [match ?m with Return _ => _ | Raise _ => _ end] =>
    destruct m as [c|e] end; simpl; [|auto].
  destruct (dec_no_init k); simpl; [auto|].
  destruct (add_init_frame c w) as (C & [(E & _)|F]).
  - rewrite E. auto.
  - split; [exact C|]. right. split; [reflexivity|exact F].
Qed.

Lemma attr_for_each_frame names : forall d w,
  CountingAttr_counter (attr_for_each names d w).2
  = (CountingAttr_counter w + length names)%nat
  /\ linecache_cache (attr_for_each names d w).2 = linecache_cache w.
Proof.
  induction names as [|a names IH]; intros d w; simpl.
  - split; [lia|reflexivity].
  - destruct (IH (dict_set d a
                    (MCounting (attr attr_defaults w).1))
                (attr attr_defaults w).2) as (C & L).
    simpl in *. rewrite C, L. split; [lia|reflexivity].
Qed.

(** C7. The state that outlives a call is the class counter and the line
    cache, and only [attr] and the decorator touch it.  A call of [attr]
    adds one to [_CountingAttr.counter] and leaves the line cache alone; a
    class body with [n] declarations adds [n].  The decorator leaves the
    counter alone, and the line cache too unless it installs an [__init__],
    in which case the cache gains the one entry filed under the name of the
    generated script; with [no_init] it changes nothing, and asking
    [attributes] for the decorator without handing it a class changes
    nothing.  [make_class] is these two steps in a row.  The remaining
    operations of the module, the generated methods among them, are
    functions of their arguments in this development: they neither read nor
    write the world. *)
Theorem C7_only_attr_and_the_decorator_change_the_world :
  (forall k w,
      CountingAttr_counter (attr k w).2 = S (CountingAttr_counter w)
      /\ linecache_cache (attr k w).2 = linecache_cache w
      /\ _CountingAttr.counter (attr k w).1 = S (CountingAttr_counter w))
  /\ (forall decls w,
        CountingAttr_counter (declare decls w).2
        = (CountingAttr_counter w + length decls)%nat
        /\ linecache_cache (declare decls w).2 = linecache_cache w)
  /\ (forall k cl w,
        CountingAttr_counter (wrap k cl w).2 = CountingAttr_counter w
        /\ (linecache_cache (wrap k cl w).2 = linecache_cache w
            \/ dec_no_init k = false
               /\ exists cl' attrs entry,
                   (wrap k cl w).1 = Return cl'
                   /\ own_method cl' "__init__" = Some (GenInit attrs)
                   /\ linecache_cache (wrap k cl w).2
                      = <["<attrs generated init "
                          +:+ sha1_hexdigest (repr_attrs attrs) +:+ ">"
                          := entry]> (linecache_cache w)))
  /\ (forall no_repr no_cmp no_hash cl w,
        (wrap {| dec_no_repr := no_repr; dec_no_cmp := no_cmp;
                 dec_no_hash := no_hash; dec_no_init := true |} cl w).2 = w)
  /\ (forall k w, (attributes None k w).2 = w)
  /\ (forall k cl w, (attributes (Some cl) k w).2 = (wrap k cl w).2)
  /\ (forall fresh name names k w,
        CountingAttr_counter (make_class fresh name (AttrsList names) k w).2
        = (CountingAttr_counter w + length names)%nat)
  /\ (forall fresh name d k w,
        CountingAttr_counter (make_class fresh name (AttrsDict d) k w).2
        = CountingAttr_counter w)
  /\ (forall fresh name k w, (make_class fresh name AttrsOther k w).2 = w).
Proof.
  split; [intros; repeat split; reflexivity|].
  split.
  { intros decls w. destruct (declare decls w) as [cas w'] eqn:E.
    now apply declare_counters in E as (_ & _ & C & L). }
  split; [apply wrap_frame|].
  split.
  { intros. unfold wrap. destruct (_transform_attrs cl) as [[[]|e] cl1];
      simpl; [|reflexivity].
    match goal with |- context [match ?m with Return _ => _ | Raise _ => _ end] =>
      destruct m as [c|e] end; reflexivity. }
  split; [reflexivity|].
  split.
  { intros. simpl. now destruct (wrap k cl w). }
  split.
  { intros. simpl.
    destruct (attr_for_each names [] w) as [d w1] eqn:E.
    pose proof (attr_for_each_frame names [] w) as (C & _).
    rewrite E in C. simpl in C. rewrite <- C. apply wrap_frame. }
  split; [intros; apply wrap_frame|reflexivity].
Qed.

End FrameProperties.

(** ** Binding the arguments of a call *)

Lemma distinct_NoDup l : distinct l = true -> List.NoDup l.
Proof.
  induction l as [|x l IH]; simpl; intros E; constructor.
  - apply andb_prop in E as [E _]. intros I.
    apply mem_string_In in I. rewrite I in E. discriminate.
  - apply IH. now apply andb_prop in E as [_ E].
Qed.

Lemma NoDup_map_inv {A B} (f : A -> B) (l : list A) :
  List.NoDup (List.map f l) -> List.NoDup l.
Proof.
  induction l as [|x l IH]; simpl; intros N; constructor;
    inversion N as [|? ? Nx Nl]; subst.
  - intros I. apply Nx. now apply in_map.
  - now apply IH.
Qed.

Lemma NoDup_lookup_inj {A} (l : list A) i j x :
  List.NoDup l -> l !! i = Some x -> l !! j = Some x -> i = j.
Proof.
  intros N. apply NoDup_ListNoDup in N. now apply NoDup_lookup.
Qed.


Lemma dict_get_None_keys {A} (d : list (string * A)) k :
  dict_get d k = None <-> ~ In k (List.map fst d).
Proof.
  induction d as [|[k0 x] d IH]; simpl; [tauto|].
  destruct (String.eqb_spec k0 k); [split; [discriminate|tauto]|].
  rewrite IH. tauto.
Qed.



Lemma lookup_map {A B} (f : A -> B) (l : list A) (i : nat) :
  List.map f l !! i = option_map f (l !! i).
Proof.
  revert i. induction l as [|x l IH]; intros [|i]; simpl; auto.
Qed.



Lemma arg_name_index attrs i j a b :
  List.NoDup (List.map arg_name attrs) ->
  attrs !! i = Some a -> attrs !! j = Some b -> arg_name a = arg_name b ->
  i = j.
Proof.
  intros N Ei Ej E.
  apply (NoDup_lookup_inj (List.map arg_name attrs) i j (arg_name a) N);
    rewrite lookup_map; [now rewrite Ei|now rewrite Ej, E].
Qed.



(** ** Running the script *)






Section ScriptProperties.
Context `{Runtime}.





End ScriptProperties.

Section InitProperties.
Context `{Runtime}.






End InitProperties.

(** * Further properties of the module *)

(** ** The generated initialiser *)

Section InitCorrect.
Context `{Runtime}.


Lemma compile_distinct attrs :
  returns (compile (script_ast attrs)) ->
  List.NoDup ("self" :: List.map arg_name attrs)
  /\ List.NoDup (List.map Attribute.name attrs).
Proof.
  intros [fd C].
  assert (Nd : List.NoDup ("self" :: List.map arg_name attrs)).
  { unfold compile in C.
    destruct (negb (forallb ascii_only _)); [discriminate|].
    destruct (existsb _ _); [discriminate|].
    destruct (forallb identifier _ && distinct _ && defaults_last false _)
      eqn:K; [|discriminate].
    apply andb_prop in K as [K _]. apply andb_prop in K as [_ K].
    apply distinct_NoDup in K. simpl in K. rewrite List.map_map in K.
    erewrite map_ext in K; [exact K|]. intros a. apply script_param_name. }
  split; [exact Nd|].
  inversion Nd as [|? ? _ Na]; subst.
  apply (NoDup_map_inv lstrip_underscores). now rewrite List.map_map.
Qed.


End InitCorrect.


(** ** Validators that raise *)

Section ValidatorErrors.
Context `{Runtime}.



End ValidatorErrors.


(** ** Names the script cannot handle *)

Lemma lstrip_underscores_head s t : lstrip_underscores s <> String "_" t.
Proof.
  induction s as [|c s IH]; simpl; [discriminate|].
  destruct (Ascii.eqb_spec c "_"%char) as [->|Ne]; [exact IH|].
  intros E. injection E as E _. contradiction.
Qed.

Lemma maybe_builtin_false x :
  maybe_builtin x = false -> exists t, x = String "_" t.
Proof.
  destruct x as [|c x]; [discriminate|].
  destruct c as [[] [] [] [] [] [] [] []]; try discriminate. eauto.
Qed.

Section UnboundNames.
Context `{Runtime}.

Lemma bind_positional_dom ps : forall args L L' x,
  bind_positional ps args L = Return L' ->
  L' !! x <> None -> L !! x <> None \/ In x (List.map fst ps).
Proof.
  induction ps as [|[x0 d0] ps IH]; intros [|v args] L L' x B D; simpl in B;
    try (inversion B; subst; now left); try discriminate.
  destruct (IH _ _ _ x B D) as [K|K]; [|right; now right].
  destruct (String.eqb_spec x0 x) as [->|Ne]; [right; now left|].
  left. now rewrite lookup_insert_ne in K.
Qed.

Lemma bind_keywords_dom ps kwargs : forall L L' x,
  bind_keywords ps kwargs L = Return L' ->
  L' !! x <> None -> L !! x <> None \/ In x (List.map fst ps).
Proof.
  induction kwargs as [|[k v] kwargs IH]; intros L L' x B D; simpl in B.
  - inversion B; subst. now left.
  - destruct (mem_string k (List.map fst ps)) eqn:M; [|discriminate].
    simpl in B. destruct (L !! k); [discriminate|].
    destruct (IH _ _ x B D) as [K|K]; [|now right].
    destruct (String.eqb_spec k x) as [->|Ne];
      [right; now apply mem_string_In|].
    left. now rewrite lookup_insert_ne in K.
Qed.

Lemma bind_defaults_dom ps : forall L L' x,
  bind_defaults ps L = Return L' ->
  L' !! x <> None -> L !! x <> None \/ In x (List.map fst ps).
Proof.
  induction ps as [|[x0 d0] ps IH]; intros L L' x B D; simpl in B.
  - inversion B; subst. now left.
  - destruct (L !! x0) eqn:E0.
    + destruct (IH _ _ x B D) as [K|K]; [now left|right; now right].
    + destruct d0 as [r|]; [|discriminate].
      destruct (IH _ _ x B D) as [K|K]; [|right; now right].
      destruct (String.eqb_spec x0 x) as [->|Ne]; [right; now left|].
      left. now rewrite lookup_insert_ne in K.
Qed.

Lemma bind_args_dom ps args kwargs L x :
  bind_args ps args kwargs = Return L ->
  L !! x <> None -> x = "self" \/ In x (List.map fst ps).
Proof.
  unfold bind_args. intros B D.
  apply bind_Return in B as (L1 & B1 & B).
  apply bind_Return in B as (L2 & B2 & B3).
  destruct (bind_defaults_dom _ _ _ x B3 D) as [K|K]; [|now right].
  destruct (bind_keywords_dom _ _ _ _ x B2 K) as [K'|K']; [|now right].
  destruct (bind_positional_dom _ _ _ _ x B1 K') as [K''|K'']; [|now right].
  left. destruct (String.eqb_spec "self" x) as [<-|Ne]; [reflexivity|].
  rewrite lookup_insert_ne, lookup_empty in K'' by assumption. congruence.
Qed.

Lemma eval_defaults_names G ps l :
  eval_defaults G ps = Return l ->
  List.map fst l = List.map param_name ps.
Proof.
  unfold eval_defaults. intros E. apply mapM_Return in E.
  induction E as [|p q ps l Ep E IH]; [reflexivity|]. simpl. f_equal; [|exact IH].
  destruct (param_default p).
  - apply bind_Return in Ep as (r & _ & Ep). now inversion Ep.
  - now inversion Ep.
Qed.

Lemma exec_block_In G L b : forall d d' s,
  exec_block G L b d = (Return tt, d') -> In s b ->
  exists d1 d2, exec G L s d1 = (Return tt, d2).
Proof.
  induction b as [|s0 b IH]; intros d d' s E I; [destruct I|].
  simpl in E. destruct (exec G L s0 d) as [[[]|e] d1] eqn:E0; [|discriminate].
  destruct I as [->|I]; [eauto|]. eapply IH; eassumption.
Qed.

Lemma exec_unbound_argument G L f e x d d' :
  L !! x = None -> G !! x = None ->
  exec G L (SExpr (ECall f [e; EName x])) d <> (Return tt, d').
Proof.
  intros El Eg E. cbn [exec] in E.
  destruct (eval G L (ECall f [e; EName x])) as [r|] eqn:Ev; [|discriminate].
  cbn [eval] in Ev. apply bind_Return in Ev as (fv & _ & Ev).
  apply bind_Return in Ev as (argv & Ea & _).
  apply mapM_Return in Ea.
  inversion Ea as [|? ? ? ? _ Ea']; subst.
  inversion Ea' as [|? ? ? ? Ex _]; subst.
  cbn [eval] in Ex. rewrite El, Eg in Ex.
  destruct (maybe_builtin x); discriminate.
Qed.

(** X3. An attribute whose name has a leading underscore cannot have a
    validator: the validator line of the script passes the attribute name,
    while the parameter carries the stripped name, so the name is unbound
    and no call of the generated [__init__] returns, whatever the
    arguments.  (The few builtin names that start with an underscore, such
    as [__doc__], are left aside.) *)
Theorem validator_on_underscore_attribute_never_returns
    (attrs : list Attribute.t) (a : Attribute.t) (self : instance)
    (args : list value) (kwargs : list (string * value)) :
  In a attrs ->
  Attribute.validator a <> VNone ->
  maybe_builtin (Attribute.name a) = false ->
  (generated_init attrs self args kwargs).1 <> Return tt.
Proof.
  intros Ia Nv Nb. unfold generated_init.
  destruct (eval_defaults _ _) as [ps|e] eqn:Ed; [|discriminate].
  cbn [mbind outcome_bind].
  destruct (bind_args ps args kwargs) as [L|e] eqn:B; [|discriminate].
  destruct (exec_block _ L _ _) as [[[]|e] d'] eqn:X; [|discriminate].
  exfalso.
  destruct (maybe_builtin_false _ Nb) as [t Et].
  assert (El : L !! Attribute.name a = None).
  { destruct (L !! Attribute.name a) eqn:E; [|reflexivity]. exfalso.
    destruct (bind_args_dom ps args kwargs L (Attribute.name a) B) as [K|K];
      [congruence|rewrite Et in K; discriminate|].
    rewrite (eval_defaults_names _ _ _ Ed) in K. simpl in K.
    rewrite List.map_map in K. apply in_map_iff in K as (b & Eb & _).
    rewrite script_param_name, Et in Eb.
    now apply lstrip_underscores_head in Eb. }
  assert (Eg : init_globals attrs !! Attribute.name a = None).
  { unfold init_globals. rewrite Et.
    now rewrite !lookup_insert_ne, lookup_empty by discriminate. }
  destruct (exec_block_In _ _ _ _ _
              (SExpr (ECall (EAttr (attr_dict_entry SingleQuote
                                      (Attribute.name a)) "validator")
                        [attr_dict_entry SingleQuote (Attribute.name a);
                         EName (Attribute.name a)])) X)
    as (d1 & d2 & E).
  - simpl. apply in_flat_map. exists a. split; [exact Ia|].
    unfold script_stmts.
    replace (negb (is_None (Attribute.validator a))) with true
      by (destruct (Attribute.validator a); simpl; congruence).
    now left.
  - now apply exec_unbound_argument in E.
Qed.

(** X4. Two attributes whose names differ only in leading underscores, or
    an attribute whose stripped name is [self], give the script a repeated
    parameter: it does not compile, so the decorator does not return unless
    [no_init] is set. *)
Theorem clashing_parameter_names_are_rejected
    (k : decorator_args) (cl : pyclass) (w : world)
    (attrs : list Attribute.t) :
  is_dict (__dict__ cl) ->
  attrs = included Attribute.no_init (declared cl) ->
  (exists i j a b, attrs !! i = Some a /\ attrs !! j = Some b /\ i <> j
                   /\ arg_name a = arg_name b)
  \/ (exists a, In a attrs /\ arg_name a = "self") ->
  ~ returns (compile (script_ast attrs))
  /\ (dec_no_init k = false -> ~ returns (wrap k cl w).1).
Proof.
  intros D -> Clash.
  assert (NC : ~ returns (compile
                            (script_ast
                               (included Attribute.no_init (declared cl))))).
  { intros C. apply compile_distinct in C as [Nd _].
    inversion Nd as [|? ? Ns Na]; subst.
    destruct Clash as [(i & j & a & b & Ei & Ej & Ne & E)|(a & Ia & E)].
    - apply Ne. eapply arg_name_index; eassumption.
    - apply Ns. rewrite <- E. now apply in_map. }
  split; [exact NC|]. intros Ki [cl' R]. apply NC.
  destruct (wrap k cl w) as [r w'] eqn:W. simpl in R. subst r.
  destruct (wrap_inv _ _ _ _ _ D W) as (_ & _ & _ & _ & C). now apply C.
Qed.

End UnboundNames.

Lemma validator_on_underscore_attribute_never_returns_witness :
  (@generated_init Demo.py3 Demo.private_checked
     (Demo.new_instance Demo.Box) [VInt 5] []).1 <> Return tt.
Proof.
  apply (@validator_on_underscore_attribute_never_returns Demo.py3
           Demo.private_checked (Demo.attribute "_x" NOTHING (VFunction 1))).
  - left. reflexivity.
  - discriminate.
  - reflexivity.
Defined.

Lemma clashing_parameter_names_are_rejected_witness :
  ~ returns (compile (script_ast Demo.clashing))
  /\ (dec_no_init Demo.all_methods = false ->
      ~ returns (@wrap Demo.py3 Demo.all_methods Demo.Clash0 Demo.world4).1).
Proof.
  apply (@clashing_parameter_names_are_rejected Demo.py3 Demo.all_methods
           Demo.Clash0 Demo.world4 Demo.clashing).
  - apply (bool_decide_unpack _). vm_compute. exact I.
  - vm_compute. reflexivity.
  - left. exists 0%nat, 1%nat, (Demo.attribute "x" NOTHING VNone),
      (Demo.attribute "_x" NOTHING VNone).
    repeat split. discriminate.
Defined.

(** ** The text and the tree of the script *)

Lemma append_cons (x : ascii) (a b : string) :
  String x a +:+ b = String x (a +:+ b).
Proof. reflexivity. Qed.

Lemma append_nil_l (b : string) : EmptyString +:+ b = b.
Proof. reflexivity. Qed.

Lemma append_assoc (a b c : string) : (a +:+ b) +:+ c = a +:+ (b +:+ c).
Proof.
  induction a as [|x a IH]; [reflexivity|].
  rewrite !append_cons. f_equal. exact IH.
Qed.

Lemma no_newline_app a b :
  no_newline (a +:+ b) = no_newline a && no_newline b.
Proof.
  unfold no_newline. induction a as [|x a IH]; [reflexivity|].
  rewrite append_cons. cbn [all_chars]. now rewrite IH, andb_assoc.
Qed.

Lemma no_newline_lstrip s :
  no_newline s = true -> no_newline (lstrip_underscores s) = true.
Proof.
  unfold no_newline. induction s as [|c s IH]; simpl; [reflexivity|].
  intros E. destruct (Ascii.eqb c "_"%char); [|exact E].
  apply IH. now apply andb_prop in E as [_ E].
Qed.

Lemma split_lines_single s : no_newline s = true -> split_lines s = [s].
Proof.
  unfold no_newline. induction s as [|c s IH]; simpl; [reflexivity|].
  intros E. apply andb_prop in E as [Ec E].
  destruct (Ascii.eqb c "010"%char); [discriminate|]. now rewrite IH.
Qed.

Lemma split_lines_app_nl s t :
  no_newline s = true -> split_lines (s +:+ nl +:+ t) = s :: split_lines t.
Proof.
  unfold no_newline. induction s as [|c s IH]; [reflexivity|].
  rewrite append_cons. cbn [all_chars split_lines].
  intros E. apply andb_prop in E as [Ec E].
  destruct (Ascii.eqb c "010"%char); [discriminate|]. now rewrite IH.
Qed.

Ltac normalize_strings :=
  cbn [render_quote]; unfold dq, nl;
  rewrite ?append_assoc, ?append_cons, ?append_nil_l.

Lemma render_script_param a : render_param (script_param a) = script_arg a.
Proof.
  unfold script_param, script_arg, render_param, attr_dict_entry.
  destruct (default_kind_of a); cbn [param_default param_name render_expr];
    normalize_strings; reflexivity.
Qed.

Lemma render_script_stmts a :
  no_newline (Attribute.name a) = true ->
  List.flat_map render_stmt (script_stmts a) = script_lines a.
Proof.
  intros Nn.
  assert (Na : no_newline (lstrip_underscores (Attribute.name a)) = true)
    by now apply no_newline_lstrip.
  unfold script_stmts, script_lines. rewrite flat_map_app. f_equal.
  - destruct (negb (is_None (Attribute.validator a))); [|reflexivity].
    unfold attr_dict_entry.
    cbn [List.flat_map render_stmt render_expr List.map join app].
    first [reflexivity | f_equal; normalize_strings; reflexivity].
  - destruct (default_kind_of a);
      cbn [List.flat_map render_stmt render_expr List.map join app].
    + first [reflexivity | f_equal; normalize_strings; reflexivity].
    + unfold attr_dict_entry, indent.
      cbn [List.flat_map render_stmt render_expr List.map join app].
      set (arg := lstrip_underscores (Attribute.name a)) in *.
      set (n := Attribute.name a) in *.
      symmetry.
      transitivity
        (split_lines
           (("if " +:+ arg +:+ " is not NOTHING:") +:+ nl
            +:+ ("    self." +:+ n +:+ " = " +:+ arg) +:+ nl
            +:+ "else:" +:+ nl
            +:+ ("    self." +:+ n +:+ " = attr_dict[" +:+ dq +:+ n +:+ dq
                 +:+ "].default.factory()"))).
      { f_equal. normalize_strings. reflexivity. }
      rewrite !split_lines_app_nl, split_lines_single;
        rewrite ?no_newline_app, ?Nn, ?Na; try reflexivity.
      repeat (f_equal; try (normalize_strings; reflexivity)).
    + first [reflexivity | f_equal; normalize_strings; reflexivity].
Qed.

(** X5. The text that [_attrs_to_script] builds is the printed form of the
    syntax tree the development runs: one parameter per attribute, then per
    attribute the validator call, if any, and the assignment in its plain
    or its [if]/[else] form.  This holds whenever no attribute name contains
    a newline, which the [split("\n")] of the factory template relies
    on. *)
Theorem script_text_is_the_printed_tree (attrs : list Attribute.t) :
  (forall a, In a attrs -> no_newline (Attribute.name a) = true) ->
  render (script_ast attrs) = _attrs_to_script attrs.
Proof.
  intros Nn. unfold render, _attrs_to_script. cbn [fd_args fd_body script_ast].
  assert (El : List.flat_map render_stmt (List.flat_map script_stmts attrs)
               = List.flat_map script_lines attrs).
  { induction attrs as [|a attrs IH]; [reflexivity|].
    cbn [List.flat_map]. rewrite flat_map_app, render_script_stmts.
    - f_equal. apply IH. intros b Ib. apply Nn. now right.
    - apply Nn. now left. }
  assert (Ea : List.map render_param (List.map script_param attrs)
               = List.map script_arg attrs).
  { rewrite List.map_map. apply map_ext. apply render_script_param. }
  now rewrite Ea, El.
Qed.

Lemma script_text_is_the_printed_tree_witness :
  render (script_ast Demo.checked) = _attrs_to_script Demo.checked.
Proof.
  apply script_text_is_the_printed_tree.
  intros a [<-|[<-|[<-|[]]]]; reflexivity.
Defined.

(** ** The line cache *)

Lemma join_empty_cons (l : string) (ls : list string) :
  join EmptyString (l :: ls) = l +:+ join EmptyString ls.
Proof.
  destruct ls as [|l' ls]; cbn [join].
  - induction l as [|c l IH]; [reflexivity|]. rewrite append_cons. now f_equal.
  - now rewrite append_nil_l.
Qed.

Lemma join_splitlines_keepends (s : string) :
  join EmptyString (splitlines_keepends s) = s.
Proof.
  induction s as [|c s IH]; [reflexivity|]. cbn [splitlines_keepends].
  destruct (Ascii.eqb c "010"%char).
  - rewrite join_empty_cons, IH. reflexivity.
  - destruct (splitlines_keepends s) as [|l ls].
    + cbn [join] in *. now subst s.
    + rewrite join_empty_cons in *. rewrite append_cons. now f_equal.
Qed.

(** X6. When [_add_init] returns, the line cache has, under the file name
    [<attrs generated init SHA1>] of the attributes of the installed
    [__init__], an entry that reproduces the script: its lines put together
    are the text of the script, its size is the length of that text and its
    full name is the file name.  Every other entry of the cache and the
    class counter are unchanged. *)
Theorem line_cache_entry_reproduces_the_script `{Runtime}
    (cl cl' : pyclass) (w w' : world) :
  _add_init cl w = (Return cl', w') ->
  exists all_attrs entry,
    let attrs := included Attribute.no_init all_attrs in
    let filename :=
      "<attrs generated init " +:+ sha1_hexdigest (repr_attrs attrs) +:+ ">" in
    __attrs_attrs__ cl = Return all_attrs
    /\ own_method cl' "__init__" = Some (GenInit attrs)
    /\ linecache_cache w' !! filename = Some entry
    /\ join EmptyString (ce_lines entry) = _attrs_to_script attrs
    /\ ce_size entry = String.length (_attrs_to_script attrs)
    /\ ce_mtime entry = VNone
    /\ ce_fullname entry = filename
    /\ (forall key, key <> filename ->
          linecache_cache w' !! key = linecache_cache w !! key)
    /\ CountingAttr_counter w' = CountingAttr_counter w.
Proof.
  unfold _add_init. destruct (__attrs_attrs__ cl) as [l|e]; [|discriminate].
  fold (included Attribute.no_init l). cbv zeta.
  remember (_attrs_to_script (included Attribute.no_init l)) as script
    eqn:Es.
  remember ("<attrs generated init "
            +:+ sha1_hexdigest (repr_attrs (included Attribute.no_init l))
            +:+ ">") as filename eqn:Ef.
  destruct (compile _) as [fd|e]; cbn [mbind outcome_bind]; [|discriminate].
  destruct (eval_defaults _ _) as [ps|e]; [|discriminate].
  intros E. injection E as <- <-.
  exists l.
  exists {| ce_size := String.length script; ce_mtime := VNone;
            ce_lines := splitlines_keepends script;
            ce_fullname := filename |}.
  cbv zeta. rewrite <- Es, <- Ef.
  split; [reflexivity|].
  split; [now rewrite own_method_set|].
  cbn [linecache_cache CountingAttr_counter ce_lines ce_size ce_mtime
         ce_fullname].
  split; [apply lookup_insert_eq|].
  split; [apply join_splitlines_keepends|].
  repeat split. intros key Ne. now apply lookup_insert_ne.
Qed.

Lemma line_cache_entry_reproduces_the_script_witness :
  exists entry,
    linecache_cache Demo.world1'
    !! ("<attrs generated init "
        +:+ @sha1_hexdigest Demo.py3
              (@repr_attrs Demo.py3
                 (included Attribute.no_init
                    (List.map to_attribute Demo.point_body))) +:+ ">")
    = Some entry
    /\ join EmptyString (ce_lines entry)
       = _attrs_to_script
           (included Attribute.no_init
              (List.map to_attribute Demo.point_body))
    /\ own_method Demo.Point2 "__init__"
       = Some (GenInit (included Attribute.no_init
                          (List.map to_attribute Demo.point_body))).
Proof.
  destruct (@line_cache_entry_reproduces_the_script Demo.py3
              Demo.Point1 Demo.Point2 Demo.world1 Demo.world1')
    as (l & entry & A & M & C & J & _).
  - vm_compute. reflexivity.
  - assert (E : l = List.map to_attribute Demo.point_body).
    { vm_compute in A. injection A as <-. reflexivity. }
    subst l. exists entry. split; [|split].
    + exact C.
    + exact J.
    + exact M.
Defined.

(** ** The class after the transformation *)

Lemma dict_get_Some_In {A} (d : list (string * A)) k x :
  dict_get d k = Some x -> In (k, x) d.
Proof.
  induction d as [|[k0 y] d IH]; simpl; [discriminate|].
  destruct (String.eqb_spec k0 k) as [->|Ne].
  - intros E. inversion E. now left.
  - intros E. right. now apply IH.
Qed.

Lemma In_dict_set {A} (d : list (string * A)) k x e :
  In e (dict_set d k x) -> e = (k, x) \/ In e d.
Proof.
  induction d as [|[k0 y] d IH]; simpl.
  - intros [<-|[]]. now left.
  - destruct (String.eqb k0 k) eqn:E0; simpl.
    + apply String.eqb_eq in E0. subst k0. intros [<-|I]; auto.
    + intros [<-|I]; auto. destruct (IH I); auto.
Qed.

Lemma no_counting_items cl : no_counting cl -> counting_items cl = [].
Proof.
  unfold no_counting, counting_items, omap.
  induction (__dict__ cl) as [|[n m] d IH]; intros N; [reflexivity|].
  simpl. destruct m as [ca| | | |];
    try (apply IH; intros n' ca' I; apply (N n' ca'); now right).
  exfalso. apply (N n ca). now left.
Qed.

Lemma no_counting_setattr cl key m :
  (forall ca, m <> MCounting ca) ->
  no_counting cl -> no_counting (class_setattr cl key m).
Proof.
  unfold no_counting. simpl. intros Nm N n ca I.
  apply In_dict_set in I as [E|I]; [|now apply (N n ca)].
  inversion E; subst. now apply (Nm ca).
Qed.

Lemma NoDup_counting_items cl :
  is_dict (__dict__ cl) -> List.NoDup (List.map fst (counting_items cl)).
Proof.
  unfold is_dict, counting_items, omap.
  induction (__dict__ cl) as [|[n m] d IH]; simpl; intros N; [constructor|].
  apply NoDup_cons in N as [Nn N].
  destruct m as [ca| | | |]; simpl; try now apply IH.
  constructor; [|now apply IH]. intros I. apply Nn.
  apply list_elem_of_In. apply in_map_iff in I as ([n' ca'] & E & I).
  simpl in E. subst n'. apply in_map_iff. exists (n, MCounting ca').
  split; [reflexivity|].
  change (list_omap _ _ ?f d) with (omap f d) in I.
  apply list_elem_of_In, list_elem_of_omap in I as ([k m'] & I & E).
  simpl in E. destruct m'; try discriminate. inversion E; subst.
  now apply list_elem_of_In.
Qed.

Lemma transform_loop_binds items : forall hd cl cl' l0,
  transform_loop items hd cl = (Return tt, cl') ->
  dict_get (__dict__ cl) "__attrs_attrs__" = Some (MAttrsList l0) ->
  List.Forall (fun e => e.1 <> "__attrs_attrs__") items ->
  List.NoDup (List.map fst items) ->
  forall e, In e items ->
    dict_get (__dict__ cl') e.1 = Some (MAttribute (to_attribute e)).
Proof.
  induction items as [|[n ca] items IH]; intros hd cl cl' l0 T G F N e I;
    [destruct I|].
  simpl in T. apply Forall_cons in F as [Fn F]. simpl in Fn, N.
  inversion N as [|? ? Nn Nl]; subst.
  destruct (hd && py_is _ NOTHING); [discriminate|].
  unfold attrs_append in T. rewrite G in T.
  assert (G1 : dict_get
                 (__dict__
                    (class_setattr
                       (class_setattr cl "__attrs_attrs__"
                          (MAttrsList (l0 ++ [Attribute.from_counting_attr n ca])))
                       n (MAttribute (Attribute.from_counting_attr n ca))))
                 "__attrs_attrs__"
               = Some (MAttrsList (l0 ++ [Attribute.from_counting_attr n ca]))).
  { simpl. rewrite !dict_get_set.
    destruct (String.eqb_spec n "__attrs_attrs__"); [contradiction|].
    reflexivity. }
  destruct I as [<-|I].
  - destruct (transform_loop_dict _ _ _ _ _ T G1 F) as (_ & K & _).
    specialize (K n Fn).
    replace (mem_string n (List.map fst items)) with false in K.
    + simpl. rewrite K. simpl. now rewrite dict_get_set, String.eqb_refl.
    + symmetry. destruct (mem_string n (List.map fst items)) eqn:M;
        [|reflexivity]. apply mem_string_In in M. contradiction.
  - eapply IH; eassumption.
Qed.

Lemma transform_no_counting cl cl' :
  is_dict (__dict__ cl) ->
  _transform_attrs cl = (Return tt, cl') ->
  no_counting cl'.
Proof.
  intros D T n ca I.
  destruct (transform_attrs_ok _ _ D T) as (G & _ & O & B & _ & _ & _ & D').
  apply (dict_get_In _ _ _ D') in I.
  destruct (String.eqb_spec n "__attrs_attrs__") as [->|Ne]; [congruence|].
  destruct (mem_string n (List.map Attribute.name (declared cl))) eqn:M.
  - apply mem_string_In, in_map_iff in M as (a & <- & Ia).
    destruct (B a Ia) as (a' & E). congruence.
  - rewrite (O n Ne M) in I. apply dict_get_Some_In in I.
    assert (M' : mem_string n (List.map Attribute.name (declared cl)) = true);
      [|congruence].
    apply mem_string_In. unfold declared. rewrite List.map_map.
    change n with (fst (n, ca)). apply in_map.
    eapply Permutation_in; [symmetry; apply sorted_by_counter_perm|].
    apply counting_items_In. simpl. apply dict_get_Some_In.
    rewrite dict_get_set.
    destruct (String.eqb_spec "__attrs_attrs__" n); [congruence|].
    apply dict_get_In; [exact D|exact I].
Qed.

(** X7. [_transform_attrs] rebinds each [_CountingAttr] member of the class
    to the [Attribute] made from it, under the same name, and leaves every
    other member alone (apart from [__attrs_attrs__], which it sets): no
    [_CountingAttr] is left in the class, its identity, name and base are
    the same, and its dictionary still binds each name once. *)
Theorem transform_attrs_rebinds_the_members (cl cl' : pyclass) :
  is_dict (__dict__ cl) ->
  _transform_attrs cl = (Return tt, cl') ->
  (forall n ca, n <> "__attrs_attrs__" ->
     In (n, MCounting ca) (__dict__ cl) ->
     dict_get (__dict__ cl') n
     = Some (MAttribute (Attribute.from_counting_attr n ca)))
  /\ (forall key m, key <> "__attrs_attrs__" ->
        dict_get (__dict__ cl) key = Some m ->
        (forall ca, m <> MCounting ca) ->
        dict_get (__dict__ cl') key = Some m)
  /\ no_counting cl'
  /\ cls_id cl' = cls_id cl /\ __name__ cl' = __name__ cl
  /\ cls_base cl' = cls_base cl
  /\ is_dict (__dict__ cl').
Proof.
  intros D T.
  destruct (transform_attrs_ok _ _ D T) as (G & _ & O & _ & Ci & Cn & Cb & D').
  unfold _transform_attrs in T.
  set (cl0 := class_setattr cl "__attrs_attrs__" (MAttrsList [])) in *.
  assert (D0 : is_dict (__dict__ cl0)) by now apply is_dict_set.
  assert (G0 : dict_get (__dict__ cl0) "__attrs_attrs__" = Some (MAttrsList []))
    by (unfold cl0; simpl; now rewrite dict_get_set).
  set (items := sorted_by_counter (counting_items cl0)) in *.
  assert (Pi : forall e, In e items <-> In e (counting_items cl0)).
  { intros e. split; apply Permutation_in;
      [apply sorted_by_counter_perm|symmetry; apply sorted_by_counter_perm]. }
  assert (Fi : List.Forall (fun e => e.1 <> "__attrs_attrs__") items).
  { apply List.Forall_forall. intros [n ca] I E. simpl in E. subst n.
    apply Pi, counting_items_In, (dict_get_In _ _ _ D0) in I. congruence. }
  assert (Ni : List.NoDup (List.map fst items)).
  { eapply Permutation_NoDup;
      [apply Permutation_map; symmetry; apply sorted_by_counter_perm|].
    now apply NoDup_counting_items. }
  assert (In0 : forall n ca, n <> "__attrs_attrs__" ->
            In (n, MCounting ca) (__dict__ cl) -> In (n, ca) items).
  { intros n ca Ne I. apply Pi, counting_items_In.
    apply dict_get_Some_In. unfold cl0. simpl. rewrite dict_get_set.
    destruct (String.eqb_spec "__attrs_attrs__" n); [congruence|].
    now apply dict_get_In. }
  assert (Nm : forall key, mem_string key (List.map Attribute.name (declared cl))
                           = mem_string key (List.map fst items)).
  { intros key. unfold declared. fold cl0. fold items.
    now rewrite List.map_map. }
  split; [|split; [|split]].
  - intros n ca Ne I.
    apply (transform_loop_binds items false cl0 cl' [] T G0 Fi Ni (n, ca)).
    now apply In0.
  - intros key m Ne E Nc. rewrite O; [exact E|exact Ne|].
    rewrite Nm. destruct (mem_string key (List.map fst items)) eqn:M;
      [|reflexivity].
    apply mem_string_In, in_map_iff in M as ([n ca] & <- & I). simpl in *.
    apply Pi, counting_items_In, (dict_get_In _ _ _ D0) in I.
    unfold cl0 in I. simpl in I. rewrite dict_get_set in I.
    destruct (String.eqb_spec "__attrs_attrs__" n); [congruence|].
    rewrite E in I. inversion I. now apply Nc in H0.
  - now apply (transform_no_counting cl).
  - repeat split; assumption.
Qed.

Lemma transform_attrs_rebinds_the_members_witness :
  dict_get (__dict__ Demo.Point1) "y"
  = Some (MAttribute (Demo.attribute "y" (VInt 0) VNone))
  /\ dict_get (__dict__ Demo.Point1) "__doc__" = Some (MValue VNone)
  /\ no_counting Demo.Point1.
Proof.
  destruct (transform_attrs_rebinds_the_members Demo.Point0 Demo.Point1)
    as (B & O & N & _).
  - apply (bool_decide_unpack _). vm_compute. exact I.
  - vm_compute. reflexivity.
  - split; [|split; [|exact N]].
    + apply (B "y" (_CountingAttr.mk 2 (VInt 0) VNone false false false false));
        [discriminate|].
      vm_compute. tauto.
    + apply O; [discriminate|reflexivity|discriminate].
Defined.

(** ** Classes that declare no attribute *)

Section NoDeclarations.
Context `{Runtime}.

Lemma no_counting_installed k l cl :
  no_counting cl -> no_counting (installed k l cl).
Proof.
  intros N. unfold installed, install_repr, install_cmp, install_hash,
    install_init.
  destruct (dec_no_repr k), (dec_no_cmp k), (dec_no_hash k), (dec_no_init k);
    repeat (apply no_counting_setattr; [discriminate|]); exact N.
Qed.

Lemma add_init_no_attributes cl w :
  dict_get (__dict__ cl) "__attrs_attrs__" = Some (MAttrsList []) ->
  exists w',
    _add_init cl w = (Return (install_init [] cl), w')
    /\ CountingAttr_counter w' = CountingAttr_counter w.
Proof.
  intros G. unfold _add_init. rewrite (attrs_attrs_own _ _ G). simpl.
  eexists. split; reflexivity.
Qed.

Lemma wrap_no_counting k cl w :
  no_counting cl ->
  exists w',
    wrap k cl w
    = (Return (installed k []
                 (class_setattr cl "__attrs_attrs__" (MAttrsList []))), w')
    /\ CountingAttr_counter w' = CountingAttr_counter w.
Proof.
  intros N. unfold wrap, _transform_attrs.
  rewrite no_counting_items
    by (apply no_counting_setattr; [discriminate|exact N]).
  set (cl0 := class_setattr cl "__attrs_attrs__" (MAttrsList [])).
  assert (G0 : dict_get (__dict__ cl0) "__attrs_attrs__" = Some (MAttrsList []))
    by (unfold cl0; simpl; now rewrite dict_get_set).
  cbn [sorted_by_counter transform_loop].
  set (c1 := if dec_no_repr k then cl0 else install_repr [] cl0).
  set (c2 := if dec_no_cmp k then c1 else install_cmp [] c1).
  set (c3 := if dec_no_hash k then c2 else install_hash [] c2).
  assert (G1 : dict_get (__dict__ c1) "__attrs_attrs__" = Some (MAttrsList [])).
  { unfold c1. destruct (dec_no_repr k); [assumption|].
    simpl. now rewrite dict_get_set. }
  assert (G2 : dict_get (__dict__ c2) "__attrs_attrs__" = Some (MAttrsList [])).
  { unfold c2, install_cmp. destruct (dec_no_cmp k); [assumption|].
    simpl. now rewrite !dict_get_set. }
  assert (G3 : dict_get (__dict__ c3) "__attrs_attrs__" = Some (MAttrsList [])).
  { unfold c3. destruct (dec_no_hash k); [assumption|].
    simpl. now rewrite dict_get_set. }
  replace (if negb (dec_no_repr k) then _add_repr cl0 None else Return cl0)
    with (Return c1)
    by (unfold c1; destruct (dec_no_repr k); simpl;
        [reflexivity|symmetry; now apply add_repr_ok]).
  simpl.
  replace (if negb (dec_no_cmp k) then _add_cmp c1 None else Return c1)
    with (Return c2)
    by (unfold c2; destruct (dec_no_cmp k); simpl;
        [reflexivity|symmetry; now apply add_cmp_ok]).
  simpl.
  replace (if negb (dec_no_hash k) then _add_hash c2 None else Return c2)
    with (Return c3)
    by (unfold c3; destruct (dec_no_hash k); simpl;
        [reflexivity|symmetry; now apply add_hash_ok]).
  unfold installed. fold cl0 c1 c2 c3.
  destruct (dec_no_init k); simpl.
  - now exists w.
  - now apply add_init_no_attributes.
Qed.

Lemma installed_methods k l cl :
  (dec_no_repr k = false ->
   own_method (installed k l cl) "__repr__"
   = Some (GenRepr (included Attribute.no_repr l)))
  /\ (dec_no_cmp k = false -> forall op,
      own_method (installed k l cl) (cmp_name op)
      = Some (GenCmp op (included Attribute.no_cmp l)))
  /\ (dec_no_hash k = false ->
      own_method (installed k l cl) "__hash__"
      = Some (GenHash (included Attribute.no_hash l)))
  /\ (dec_no_init k = false ->
      own_method (installed k l cl) "__init__"
      = Some (GenInit (included Attribute.no_init l))).
Proof.
  unfold installed, install_repr, install_cmp, install_hash, install_init.
  split; [|split; [|split]].
  - intros ->. destruct (dec_no_cmp k), (dec_no_hash k), (dec_no_init k);
      now rewrite !own_method_set.
  - intros -> op.
    destruct (dec_no_repr k), (dec_no_hash k), (dec_no_init k), op;
      now rewrite !own_method_set.
  - intros ->. destruct (dec_no_repr k), (dec_no_cmp k), (dec_no_init k);
      now rewrite !own_method_set.
  - intros ->. destruct (dec_no_repr k), (dec_no_cmp k), (dec_no_hash k);
      now rewrite !own_method_set.
Qed.

End NoDeclarations.



(** X9. Decorating a class that the decorator has already returned goes
    through, with any flags, and forgets the attributes: the first pass has
    replaced every [_CountingAttr] by an [Attribute], so the second pass
    finds none, resets [__attrs_attrs__] to the empty list and installs the
    methods it is asked for over no attribute. *)
Theorem decorating_twice_forgets_the_attributes `{Runtime}
    (k k' : decorator_args) (cl cl1 : pyclass) (w w1 : world) :
  is_dict (__dict__ cl) ->
  wrap k cl w = (Return cl1, w1) ->
  exists cl2 w2,
    wrap k' cl1 w1 = (Return cl2, w2)
    /\ __attrs_attrs__ cl1 = Return (declared cl)
    /\ __attrs_attrs__ cl2 = Return []
    /\ (dec_no_repr k' = false -> own_method cl2 "__repr__" = Some (GenRepr []))
    /\ (dec_no_cmp k' = false -> forall op,
          own_method cl2 (cmp_name op) = Some (GenCmp op []))
    /\ (dec_no_hash k' = false -> own_method cl2 "__hash__" = Some (GenHash []))
    /\ (dec_no_init k' = false -> own_method cl2 "__init__" = Some (GenInit [])).
Proof.
  intros D W. destruct (wrap_inv _ _ _ _ _ D W) as (c & T & -> & _).
  assert (N : no_counting (installed k (declared cl) c))
    by (apply no_counting_installed; now apply (transform_no_counting cl)).
  destruct (wrap_no_counting k' _ w1 N) as (w2 & W2 & _).
  eexists _, w2. split; [exact W2|].
  split; [|split].
  - apply attrs_attrs_own. rewrite install_attrs_attrs.
    now destruct (transform_attrs_ok _ _ D T) as (G & _).
  - apply attrs_attrs_own. rewrite install_attrs_attrs. simpl.
    now rewrite dict_get_set.
  - apply installed_methods.
Qed.

Lemma decorating_twice_forgets_the_attributes_witness :
  exists cl2 w2,
    @wrap Demo.py3 Demo.all_methods Demo.Point Demo.world2 = (Return cl2, w2)
    /\ __attrs_attrs__ Demo.Point
       = Return (List.map to_attribute Demo.point_body)
    /\ __attrs_attrs__ cl2 = Return [].
Proof.
  destruct (@decorating_twice_forgets_the_attributes Demo.py3
              Demo.all_methods Demo.all_methods Demo.Point0 Demo.Point
              Demo.world1 Demo.world2)
    as (cl2 & w2 & W & A1 & A2 & _).
  - apply (bool_decide_unpack _). vm_compute. exact I.
  - vm_compute. reflexivity.
  - exists cl2, w2. split; [exact W|]. split; [|exact A2].
    rewrite A1. vm_compute. reflexivity.
Defined.

(** ** [make_class] with a list of names *)






Section MakeClass.
Context `{Runtime}.

Lemma wrap_steps k cl cl1 w :
  is_dict (__dict__ cl) ->
  _transform_attrs cl = (Return tt, cl1) ->
  wrap k cl w
  = let c3 := installed {| dec_no_repr := dec_no_repr k;
                           dec_no_cmp := dec_no_cmp k;
                           dec_no_hash := dec_no_hash k;
                           dec_no_init := true |} (declared cl) cl1 in
    if dec_no_init k then (Return c3, w) else _add_init c3 w.
Proof.
  intros D T. unfold wrap. rewrite T.
  destruct (transform_attrs_ok _ _ D T) as (G & _).
  set (l := declared cl) in *.
  set (c1 := if dec_no_repr k then cl1 else install_repr l cl1).
  set (c2 := if dec_no_cmp k then c1 else install_cmp l c1).
  set (c3 := if dec_no_hash k then c2 else install_hash l c2).
  assert (G1 : dict_get (__dict__ c1) "__attrs_attrs__" = Some (MAttrsList l)).
  { unfold c1. destruct (dec_no_repr k); [assumption|].
    simpl. now rewrite dict_get_set. }
  assert (G2 : dict_get (__dict__ c2) "__attrs_attrs__" = Some (MAttrsList l)).
  { unfold c2, install_cmp. destruct (dec_no_cmp k); [assumption|].
    simpl. now rewrite !dict_get_set. }
  replace (if negb (dec_no_repr k) then _add_repr cl1 None else Return cl1)
    with (Return c1)
    by (unfold c1; destruct (dec_no_repr k); simpl;
        [reflexivity|symmetry; now apply add_repr_ok]).
  simpl.
  replace (if negb (dec_no_cmp k) then _add_cmp c1 None else Return c1)
    with (Return c2)
    by (unfold c2; destruct (dec_no_cmp k); simpl;
        [reflexivity|symmetry; now apply add_cmp_ok]).
  simpl.
  replace (if negb (dec_no_hash k) then _add_hash c2 None else Return c2)
    with (Return c3)
    by (unfold c3; destruct (dec_no_hash k); simpl;
        [reflexivity|symmetry; now apply add_hash_ok]).
  unfold installed. simpl. fold c1 c2 c3.
  now destruct (dec_no_init k).
Qed.


End MakeClass.





(** ** [Attribute.__init__] and [from_counting_attr] *)

Lemma Attribute_setattrs_spec kw names : forall d,
  ((Attribute_setattrs names kw d).1 = Return tt
   <-> forall a, In a names -> dict_get kw a <> None)
  /\ (forall e, (Attribute_setattrs names kw d).1 = Raise e -> e = TypeError)
  /\ ((Attribute_setattrs names kw d).1 = Return tt ->
      forall a, (Attribute_setattrs names kw d).2 !! a
                = if mem_string a names then dict_get kw a else d !! a).
Proof.
  induction names as [|a0 names IH]; intros d; simpl.
  - repeat split; try tauto; try discriminate.
  - destruct (dict_get kw a0) as [v|] eqn:E; simpl.
    + destruct (IH (<[a0 := v]> d)) as (I1 & I2 & I3).
      split; [|split; [exact I2|]].
      * rewrite I1. split.
        -- intros F a [<-|I]; [congruence|now apply F].
        -- intros F a I. apply F. now right.
      * intros R a. rewrite (I3 R a). unfold mem_string. simpl.
        fold (mem_string a names).
        destruct (mem_string a names) eqn:M.
        -- now rewrite orb_true_r.
        -- rewrite orb_false_r. destruct (String.eqb_spec a a0) as [->|Ne].
           ++ now rewrite lookup_insert_eq.
           ++ now rewrite lookup_insert_ne by congruence.
    + split; [|split].
      * split; [discriminate|]. intros F. exfalso. apply (F a0); auto.
      * intros e Ee. now inversion Ee.
      * discriminate.
Qed.

(** X11. [Attribute.__init__] accepts exactly the seven keywords of
    [_attributes]: it returns if and only if the names of the keywords are
    these seven; more keywords, or a missing one, raise a [TypeError] and
    nothing else (the [KeyError] does not escape).  When it returns, each of
    the seven attributes of the instance holds the value of its keyword and
    every other attribute of the instance is as it was. *)
Theorem attribute_init_takes_exactly_the_seven_keywords
    (kw : list (string * value)) (self : gmap string value) :
  is_dict kw ->
  ((Attribute__init__ kw self).1 = Return tt
   <-> Permutation (List.map fst kw) _attributes)
  /\ (forall e, (Attribute__init__ kw self).1 = Raise e -> e = TypeError)
  /\ ((Attribute__init__ kw self).1 = Return tt ->
      forall a, (Attribute__init__ kw self).2 !! a
                = if mem_string a _attributes then dict_get kw a
                  else self !! a).
Proof.
  intros D. unfold Attribute__init__.
  destruct (Attribute_setattrs_spec kw _attributes self) as (S1 & S2 & S3).
  assert (Nd : List.NoDup _attributes).
  { apply NoDup_ListNoDup, (bool_decide_unpack _). vm_compute. exact I. }
  destruct (Nat.ltb_spec (length _attributes) (length kw)) as [L|L]; simpl.
  - split; [|split].
    + split; [discriminate|]. intros P. apply Permutation_length in P.
      rewrite length_map in P. lia.
    + intros e E. now inversion E.
    + discriminate.
  - split; [|split; assumption].
    rewrite S1. split.
    + intros F. symmetry. apply NoDup_Permutation_bis.
      * exact Nd.
      * now rewrite length_map.
      * intros a Ia. specialize (F a Ia).
        destruct (dict_get kw a) as [v|] eqn:E; [|contradiction].
        apply dict_get_Some_In in E. change a with (fst (a, v)).
        now apply in_map.
    + intros P a Ia E.
      apply dict_get_None_keys in E. apply E.
      eapply Permutation_in; [symmetry; exact P|exact Ia].
Qed.

Lemma attribute_init_takes_exactly_the_seven_keywords_witness :
  (Attribute__init__
     [("default", VInt 1); ("name", VStr "x"); ("validator", VNone);
      ("no_init", VBool false); ("no_repr", VBool false);
      ("no_cmp", VBool true); ("no_hash", VBool false)] ∅).1 = Return tt
  /\ (Attribute__init__
        [("name", VStr "x"); ("default", VInt 1)] ∅).1 = Raise TypeError.
Proof.
  split.
  - apply attribute_init_takes_exactly_the_seven_keywords.
    + apply (bool_decide_unpack _). vm_compute. exact I.
    + apply (bool_decide_unpack _). vm_compute. exact I.
  - destruct (Attribute__init__ [("name", VStr "x"); ("default", VInt 1)] ∅).1
      as [[]|e] eqn:E.
    + vm_compute in E. discriminate.
    + f_equal.
      apply (attribute_init_takes_exactly_the_seven_keywords
               [("name", VStr "x"); ("default", VInt 1)] ∅).
      * apply (bool_decide_unpack _). vm_compute. exact I.
      * exact E.
Defined.

(** X12. [Attribute.from_counting_attr] never takes an error branch: for a
    [_CountingAttr] instance whose dictionary [_CountingAttr.__init__] has
    filled, of whatever class, reading the six attributes succeeds, the
    keywords it passes are the seven of [_attributes], each once, and
    [Attribute.__init__] returns on them, leaving a fresh instance with the
    given name and the six values of the [_CountingAttr]: the counter is
    dropped and the validator, which [_CountingAttr.__attrs_attrs__] does
    not list, is carried over. *)
Theorem from_counting_attr_builds_the_attribute
    (cl : pyclass) (name : string) (ca : _CountingAttr.t) :
  exists kw,
    from_counting_attr_kw name
      {| inst_class := cl; inst_dict := _CountingAttr_dict ca |} = Return kw
    /\ is_dict kw
    /\ List.map fst kw = _attributes
    /\ Attribute__init__ kw ∅
       = (Return tt, Attribute_dict (Attribute.from_counting_attr name ca)).
Proof.
  destruct ca as [c d v r cm h i].
  eexists. split; [vm_compute; reflexivity|].
  split; [|split].
  - apply (bool_decide_unpack _). vm_compute. exact I.
  - reflexivity.
  - vm_compute. reflexivity.
Qed.

(** ** The methods of [Attribute] *)

Lemma issubclass_refl cl : issubclass cl cl = true.
Proof. destruct cl; simpl. now rewrite Nat.eqb_refl. Qed.

Lemma Attribute_tuple cl (a : Attribute.t) :
  _attrs_to_tuple
    (OInstance {| inst_class := cl; inst_dict := Attribute_dict a |}) _a
  = Return [VStr (Attribute.name a); Attribute.default a;
            Attribute.validator a; VBool (Attribute.no_repr a);
            VBool (Attribute.no_cmp a); VBool (Attribute.no_hash a);
            VBool (Attribute.no_init a)].
Proof. destruct a. vm_compute. reflexivity. Qed.

Lemma Attribute_getattr cl (a : Attribute.t) :
  let self := {| inst_class := cl; inst_dict := Attribute_dict a |} in
  getattr self "name" = Return (VStr (Attribute.name a))
  /\ getattr self "default" = Return (Attribute.default a)
  /\ getattr self "validator" = Return (Attribute.validator a)
  /\ getattr self "no_repr" = Return (VBool (Attribute.no_repr a))
  /\ getattr self "no_cmp" = Return (VBool (Attribute.no_cmp a))
  /\ getattr self "no_hash" = Return (VBool (Attribute.no_hash a))
  /\ getattr self "no_init" = Return (VBool (Attribute.no_init a)).
Proof. destruct a. repeat split; vm_compute; reflexivity. Qed.

(** X13. The class [Attribute] gets its methods from the list [_a] that the
    module writes out, not from [__attrs_attrs__], which the class does not
    have: with [attrs=None] the same call would raise an [AttributeError].
    On instances that [Attribute.__init__] has filled, the closures over
    [_a] compute what [==], [!=], [hash] and [repr] give for [Attribute]
    values everywhere else in this development: the comparison of the seven
    fields in the order of [_attributes], the hash of their tuple, and the
    text [Attribute(name=..., default=..., ..., no_init=...)]. *)
Theorem attribute_methods_range_over_the_seven_fields `{Runtime}
    (cl : pyclass) (a b : Attribute.t) :
  __name__ cl = "Attribute" ->
  let self := {| inst_class := cl; inst_dict := Attribute_dict a |} in
  let other := {| inst_class := cl; inst_dict := Attribute_dict b |} in
  (exists cl',
     Attribute_with_methods cl = Return cl'
     /\ own_method cl' "__repr__" = Some (GenRepr _a)
     /\ (forall op, own_method cl' (cmp_name op) = Some (GenCmp op _a))
     /\ own_method cl' "__hash__" = Some (GenHash _a)
     /\ __name__ cl' = "Attribute" /\ cls_id cl' = cls_id cl)
  /\ (class_getattr cl "__attrs_attrs__" = None ->
      _add_repr cl None = Raise AttributeError)
  /\ repr_ _a self = Return (py_repr (Attribute.to_value a))
  /\ hash_ _a self = py_hash (Attribute.to_value a)
  /\ Cmp.eq _a self (OInstance other)
     = Return (CmpBool (py_eq (Attribute.to_value a) (Attribute.to_value b)))
  /\ Cmp.ne _a self (OInstance other)
     = Return (CmpBool (py_ne (Attribute.to_value a) (Attribute.to_value b))).
Proof.
  intros Nm self other.
  assert (Eq : Cmp.eq _a self (OInstance other)
               = Return (CmpBool (py_eq (Attribute.to_value a)
                                    (Attribute.to_value b)))).
  { unfold Cmp.eq, self, other. cbn [isinstance inst_class].
    rewrite issubclass_refl, !Attribute_tuple. cbn [mbind outcome_bind].
    do 2 f_equal. unfold Attribute.to_value. cbn [py_eq].
    now rewrite andb_true_r, !andb_assoc. }
  split; [|split; [|split; [|split; [|split]]]].
  - unfold Attribute_with_methods, _add_repr, _add_cmp, _add_hash,
      attrs_or_default. cbn [mbind outcome_bind].
    eexists. split; [reflexivity|].
    split; [now rewrite !own_method_set|].
    split; [intros []; now rewrite !own_method_set|].
    split; [now rewrite !own_method_set|]. split; [exact Nm|reflexivity].
  - intros E. unfold _add_repr, attrs_or_default, __attrs_attrs__.
    now rewrite E.
  - destruct (Attribute_getattr cl a) as (G1 & G2 & G3 & G4 & G5 & G6 & G7).
    fold self in G1, G2, G3, G4, G5, G6, G7.
    unfold repr_, _a, _attributes. cbn [List.map mapM Attribute.name].
    rewrite G1, G2, G3, G4, G5, G6, G7. cbn [mbind outcome_bind mret outcome_ret].
    f_equal. unfold self. cbn [inst_class]. rewrite Nm.
    unfold Attribute.to_value. cbn [py_repr join].
    rewrite ?append_assoc, ?append_cons, ?append_nil_l. reflexivity.
  - unfold hash_, self. rewrite Attribute_tuple. cbn [mbind outcome_bind].
    unfold Attribute.to_value. cbn [py_hash].
    destruct (py_hash (Attribute.default a)); cbn [mbind outcome_bind];
      [|reflexivity].
    destruct (py_hash (Attribute.validator a)); reflexivity.
  - exact Eq.
  - unfold Cmp.ne. rewrite Eq. reflexivity.
Qed.

Lemma attribute_methods_range_over_the_seven_fields_witness :
  @repr_ Demo.py3 _a
    {| inst_class := Demo.empty_class 4 "Attribute";
       inst_dict := Attribute_dict (Demo.attribute "x" (VInt 1) VNone) |}
  = Return
      ("Attribute(name='x', default=1, validator=None, no_repr=False, "
       +:+ "no_cmp=False, no_hash=False, no_init=False)").
Proof.
  destruct (@attribute_methods_range_over_the_seven_fields Demo.py3
              (Demo.empty_class 4 "Attribute")
              (Demo.attribute "x" (VInt 1) VNone)
              (Demo.attribute "x" (VInt 1) VNone))
    as (_ & _ & R & _).
  - reflexivity.
  - rewrite R. vm_compute. reflexivity.
Defined.

(** ** The methods of [_CountingAttr] *)

Lemma CountingAttr_tuple cl (x : _CountingAttr.t) :
  _attrs_to_tuple
    (OInstance {| inst_class := cl; inst_dict := _CountingAttr_dict x |})
    _CountingAttr_attrs
  = Return [VInt (Z.of_nat (_CountingAttr.counter x)); _CountingAttr.default x;
            VBool (_CountingAttr.no_repr x); VBool (_CountingAttr.no_cmp x);
            VBool (_CountingAttr.no_hash x); VBool (_CountingAttr.no_init x)].
Proof. destruct x. vm_compute. reflexivity. Qed.

Lemma CountingAttr_getattr cl (x : _CountingAttr.t) :
  let self := {| inst_class := cl; inst_dict := _CountingAttr_dict x |} in
  getattr self "counter" = Return (VInt (Z.of_nat (_CountingAttr.counter x)))
  /\ getattr self "default" = Return (_CountingAttr.default x)
  /\ getattr self "no_repr" = Return (VBool (_CountingAttr.no_repr x))
  /\ getattr self "no_cmp" = Return (VBool (_CountingAttr.no_cmp x))
  /\ getattr self "no_hash" = Return (VBool (_CountingAttr.no_hash x))
  /\ getattr self "no_init" = Return (VBool (_CountingAttr.no_init x)).
Proof. destruct x. repeat split; vm_compute; reflexivity. Qed.

(** X14. [_CountingAttr] takes its [__repr__] and its six comparisons from
    the [__attrs_attrs__] of its class body, which lists the counter, the
    default and the four flags but not the validator; no [__hash__] is
    installed.  So the repr of what [attr] returns does not show the
    validator, two such objects are equal exactly when counter, default and
    flags are, whatever their validators, and the results of two calls of
    [attr], the second in the world the first has left, are never equal. *)
Theorem counting_attr_methods_leave_out_the_validator `{Runtime}
    (cl : pyclass) (x y : _CountingAttr.t) :
  dict_get (__dict__ cl) "__attrs_attrs__"
  = Some (MAttrsList _CountingAttr_attrs) ->
  exists cl',
    _CountingAttr_with_methods cl = Return cl'
    /\ own_method cl' "__repr__" = Some (GenRepr _CountingAttr_attrs)
    /\ (forall op,
          own_method cl' (cmp_name op) = Some (GenCmp op _CountingAttr_attrs))
    /\ own_method cl' "__hash__" = own_method cl "__hash__"
    /\ __name__ cl' = __name__ cl /\ cls_id cl' = cls_id cl
    /\ (let self := {| inst_class := cl'; inst_dict := _CountingAttr_dict x |} in
        let other := {| inst_class := cl'; inst_dict := _CountingAttr_dict y |} in
        repr_ _CountingAttr_attrs self
        = Return (__name__ cl
                  +:+ "(counter="
                  +:+ repr_int (Z.of_nat (_CountingAttr.counter x))
                  +:+ ", default=" +:+ py_repr (_CountingAttr.default x)
                  +:+ ", no_repr=" +:+ repr_bool (_CountingAttr.no_repr x)
                  +:+ ", no_cmp=" +:+ repr_bool (_CountingAttr.no_cmp x)
                  +:+ ", no_hash=" +:+ repr_bool (_CountingAttr.no_hash x)
                  +:+ ", no_init=" +:+ repr_bool (_CountingAttr.no_init x)
                  +:+ ")")
        /\ Cmp.eq _CountingAttr_attrs self (OInstance other)
           = Return (CmpBool
                       (Nat.eqb (_CountingAttr.counter x) (_CountingAttr.counter y)
                        && py_eq (_CountingAttr.default x) (_CountingAttr.default y)
                        && Bool.eqb (_CountingAttr.no_repr x) (_CountingAttr.no_repr y)
                        && Bool.eqb (_CountingAttr.no_cmp x) (_CountingAttr.no_cmp y)
                        && Bool.eqb (_CountingAttr.no_hash x) (_CountingAttr.no_hash y)
                        && Bool.eqb (_CountingAttr.no_init x) (_CountingAttr.no_init y))))
    /\ (forall k k' w,
          Cmp.eq _CountingAttr_attrs
            {| inst_class := cl'; inst_dict := _CountingAttr_dict (attr k w).1 |}
            (OInstance
               {| inst_class := cl';
                  inst_dict := _CountingAttr_dict (attr k' (attr k w).2).1 |})
          = Return (CmpBool false)).
Proof.
  intros G.
  assert (F : List.filter (fun a => negb (Attribute.no_repr a)) _CountingAttr_attrs
              = _CountingAttr_attrs) by reflexivity.
  assert (F' : List.filter (fun a => negb (Attribute.no_cmp a)) _CountingAttr_attrs
               = _CountingAttr_attrs) by reflexivity.
  assert (Eq : forall c (u v : _CountingAttr.t),
             Cmp.eq _CountingAttr_attrs
               {| inst_class := c; inst_dict := _CountingAttr_dict u |}
               (OInstance {| inst_class := c; inst_dict := _CountingAttr_dict v |})
             = Return (CmpBool
                  (Nat.eqb (_CountingAttr.counter u) (_CountingAttr.counter v)
                   && py_eq (_CountingAttr.default u) (_CountingAttr.default v)
                   && Bool.eqb (_CountingAttr.no_repr u) (_CountingAttr.no_repr v)
                   && Bool.eqb (_CountingAttr.no_cmp u) (_CountingAttr.no_cmp v)
                   && Bool.eqb (_CountingAttr.no_hash u) (_CountingAttr.no_hash v)
                   && Bool.eqb (_CountingAttr.no_init u) (_CountingAttr.no_init v)))).
  { intros c u v. unfold Cmp.eq. cbn [isinstance inst_class].
    rewrite issubclass_refl, !CountingAttr_tuple. cbn [mbind outcome_bind].
    do 2 f_equal. cbn [py_eq].
    replace (Z.eqb (Z.of_nat (_CountingAttr.counter u))
               (Z.of_nat (_CountingAttr.counter v)))
      with (Nat.eqb (_CountingAttr.counter u) (_CountingAttr.counter v)).
    - now rewrite andb_true_r, !andb_assoc.
    - destruct (Nat.eqb_spec (_CountingAttr.counter u) (_CountingAttr.counter v)),
        (Z.eqb_spec (Z.of_nat (_CountingAttr.counter u))
           (Z.of_nat (_CountingAttr.counter v))); try reflexivity; lia. }
  unfold _CountingAttr_with_methods.
  rewrite (add_repr_ok cl _CountingAttr_attrs G). cbn [mbind outcome_bind].
  rewrite (add_cmp_ok _ _CountingAttr_attrs)
    by (unfold install_repr; cbn [__dict__ class_setattr];
        now rewrite dict_get_set).
  unfold install_cmp, install_repr, included. rewrite !F, !F'.
  eexists. split; [reflexivity|].
  split; [now rewrite !own_method_set|].
  split; [intros []; now rewrite !own_method_set|].
  split; [now rewrite !own_method_set|].
  split; [reflexivity|]. split; [reflexivity|].
  split; [split|].
  - match goal with |- repr_ _ ?s = _ => set (self := s) end.
    destruct (CountingAttr_getattr (inst_class self) x)
      as (G1 & G2 & G3 & G4 & G5 & G6).
    change {| inst_class := inst_class self;
              inst_dict := _CountingAttr_dict x |} with self
      in G1, G2, G3, G4, G5, G6.
    unfold repr_, _CountingAttr_attrs. cbn [List.map mapM Attribute.name].
    rewrite G1, G2, G3, G4, G5, G6.
    cbn [mbind outcome_bind mret outcome_ret].
    f_equal. unfold self. cbn [inst_class __name__ class_setattr py_repr join].
    rewrite ?append_assoc, ?append_cons, ?append_nil_l. reflexivity.
  - apply Eq.
  - intros k k' w. rewrite Eq. do 2 f_equal.
    unfold attr, _CountingAttr__init__.
    cbn [fst snd _CountingAttr.counter CountingAttr_counter].
    replace (Nat.eqb (S (CountingAttr_counter w))
               (S (S (CountingAttr_counter w)))) with false; [reflexivity|].
    symmetry. apply Nat.eqb_neq. lia.
Qed.

Lemma counting_attr_methods_leave_out_the_validator_witness :
  exists cl',
    _CountingAttr_with_methods
      {| cls_id := 5; __name__ := "_CountingAttr"; cls_base := None;
         __dict__ := [("__attrs_attrs__", MAttrsList _CountingAttr_attrs);
                      ("counter", MValue (VInt 0))] |} = Return cl'
    /\ @repr_ Demo.py3 _CountingAttr_attrs
         {| inst_class := cl';
            inst_dict :=
              _CountingAttr_dict
                (attr {| arg_default := VInt 7; arg_validator := VFunction 2;
                         arg_no_repr := false; arg_no_cmp := false;
                         arg_no_hash := false; arg_no_init := false |}
                   Demo.world0).1 |}
       = Return ("_CountingAttr(counter=1, default=7, no_repr=False, "
                 +:+ "no_cmp=False, no_hash=False, no_init=False)").
Proof.
  destruct (@counting_attr_methods_leave_out_the_validator Demo.py3
              {| cls_id := 5; __name__ := "_CountingAttr"; cls_base := None;
                 __dict__ := [("__attrs_attrs__", MAttrsList _CountingAttr_attrs);
                              ("counter", MValue (VInt 0))] |}
              (attr {| arg_default := VInt 7; arg_validator := VFunction 2;
                       arg_no_repr := false; arg_no_cmp := false;
                       arg_no_hash := false; arg_no_init := false |}
                 Demo.world0).1
              (attr attr_defaults Demo.world0).1)
    as (cl' & W & _ & _ & _ & _ & _ & (R & _) & _).
  - reflexivity.
  - exists cl'. split; [exact W|]. rewrite R. vm_compute. reflexivity.
Defined.

(** ** The class [Factory] *)

(** X15. The class statement of [Factory] goes through in every world: it
    takes one value of the counter, files one script in the line cache and
    yields a class with the single mandatory attribute [factory] and all
    four families of methods.  Its [__init__] stores its one argument and
    refuses a call without it; on its instances the generated closures
    compute what [==], [hash] and [repr] give for [Factory] values
    everywhere else in this development. *)
Theorem factory_class_has_one_mandatory_attribute `{Runtime}
    (id : nat) (doc : string) (w : world) :
  let attrs := [Attribute.mk "factory" NOTHING VNone false false false false] in
  exists cl w',
    Factory id doc w = (Decorated (Return cl), w')
    /\ __attrs_attrs__ cl = Return attrs
    /\ __name__ cl = "Factory" /\ cls_id cl = id
    /\ own_method cl "__repr__" = Some (GenRepr attrs)
    /\ (forall op, own_method cl (cmp_name op) = Some (GenCmp op attrs))
    /\ own_method cl "__hash__" = Some (GenHash attrs)
    /\ own_method cl "__init__" = Some (GenInit attrs)
    /\ CountingAttr_counter w' = S (CountingAttr_counter w)
    /\ (exists entry,
          linecache_cache w'
          = <["<attrs generated init " +:+ sha1_hexdigest (repr_attrs attrs)
              +:+ ">" := entry]> (linecache_cache w))
    /\ (forall (self : instance) (f : value),
          generated_init attrs self [f] []
          = (Return tt, {| inst_class := inst_class self;
                           inst_dict := <["factory" := f]> (inst_dict self) |})
          /\ generated_init attrs self [] [("factory", f)]
             = (Return tt, {| inst_class := inst_class self;
                              inst_dict := <["factory" := f]> (inst_dict self) |})
          /\ generated_init attrs self [] [] = (Raise TypeError, self))
    /\ (forall f g : value,
          let self := {| inst_class := cl; inst_dict := <["factory" := f]> ∅ |} in
          let other := {| inst_class := cl; inst_dict := <["factory" := g]> ∅ |} in
          repr_ attrs self = Return (py_repr (VFactory f))
          /\ hash_ attrs self = py_hash (VFactory f)
          /\ Cmp.eq attrs self (OInstance other)
             = Return (CmpBool (py_eq (VFactory f) (VFactory g)))).
Proof.
  intros attrs.
  set (k := {| dec_no_repr := false; dec_no_cmp := false;
               dec_no_hash := false; dec_no_init := false |}).
  set (w1 := (attr attr_defaults w).2).
  set (cl0 := {| cls_id := id; __name__ := "Factory"; cls_base := None;
                 __dict__ := [("__doc__", MValue (VStr doc));
                              ("factory", MCounting (attr attr_defaults w).1)] |}).
  assert (D : is_dict (__dict__ cl0)).
  { apply (bool_decide_unpack _). vm_compute. exact I. }
  assert (Dl : declared cl0 = attrs) by reflexivity.
  destruct (_transform_attrs cl0) as [[[]|e] cl1] eqn:T;
    [|vm_compute in T; discriminate].
  destruct (transform_attrs_ok _ _ D T) as (G & _ & _ & _ & Ci & Cn & _).
  rewrite Dl in G.
  pose proof (wrap_steps k cl0 cl1 w1 D T) as W. rewrite Dl in W.
  cbv zeta in W. cbn [dec_no_init k] in W.
  set (c3 := installed _ attrs cl1) in W.
  assert (G3 : dict_get (__dict__ c3) "__attrs_attrs__" = Some (MAttrsList attrs))
    by (unfold c3; now rewrite install_attrs_attrs).
  assert (P3 : __name__ c3 = "Factory")
    by (unfold c3, installed, install_repr, install_cmp, install_hash;
        cbn; exact Cn).
  assert (Q3 : cls_id c3 = id)
    by (unfold c3, installed, install_repr, install_cmp, install_hash;
        cbn; exact Ci).
  destruct (installed_methods
              {| dec_no_repr := false; dec_no_cmp := false;
                 dec_no_hash := false; dec_no_init := true |} attrs cl1)
    as (Mr & Mc & Mh & _).
  fold c3 in Mr, Mc, Mh.
  unfold _add_init in W. rewrite (attrs_attrs_own _ _ G3) in W.
  change (List.filter (fun a => negb (Attribute.no_init a)) attrs)
    with attrs in W.
  replace (compile (script_ast attrs)) with (Return (script_ast attrs)) in W
    by (vm_compute; reflexivity).
  unfold mbind, outcome_bind in W. cbv beta iota in W.
  replace (eval_defaults (init_globals attrs) (fd_args (script_ast attrs)))
    with (Return [("factory", @None rtval)]) in W
    by (vm_compute; reflexivity).
  cbv beta iota in W.
  unfold Factory, attributes. fold w1 cl0 k.
  replace (attr attr_defaults w) with ((attr attr_defaults w).1, w1)
    by reflexivity.
  cbv beta iota. fold cl0. rewrite W. clear W.
  eexists _, _. split; [reflexivity|].
  split; [apply attrs_attrs_own; cbn [__dict__ class_setattr];
          now rewrite dict_get_set|].
  split; [exact P3|]. split; [exact Q3|].
  split; [rewrite own_method_set; now apply Mr|].
  split; [intros op; rewrite own_method_set;
          destruct op; now apply (Mc eq_refl)|].
  split; [rewrite own_method_set; now apply Mh|].
  split; [now rewrite own_method_set|].
  split; [reflexivity|].
  split; [eexists; reflexivity|].
  split.
  - intros [c d] f. repeat split; vm_compute; reflexivity.
  - intros f g.
    set (self := {| inst_class := class_setattr c3 "__init__"
                                    (MMethod (GenInit attrs));
                    inst_dict := <["factory" := f]> ∅ |}).
    set (other := {| inst_class := class_setattr c3 "__init__"
                                     (MMethod (GenInit attrs));
                     inst_dict := <["factory" := g]> ∅ |}).
    assert (T0 : forall c x,
               _attrs_to_tuple
                 (OInstance {| inst_class := c;
                               inst_dict := <["factory" := x]> ∅ |}) attrs
               = Return [x]) by (intros; vm_compute; reflexivity).
    split; [|split].
    + unfold repr_, attrs. cbn [List.map mapM Attribute.name].
      replace (getattr self "factory") with (Return f)
        by (vm_compute; reflexivity).
      cbn [mbind outcome_bind mret outcome_ret]. f_equal.
      unfold self. cbn [inst_class __name__ class_setattr py_repr join].
      rewrite P3.
      rewrite ?append_assoc, ?append_cons, ?append_nil_l. reflexivity.
    + unfold hash_, self. rewrite T0. cbn [mbind outcome_bind py_hash].
      destruct (py_hash f); reflexivity.
    + unfold Cmp.eq, self, other. cbn [isinstance inst_class].
      rewrite issubclass_refl, !T0. cbn [mbind outcome_bind py_eq].
      now rewrite andb_true_r.
Qed.

(** ** Reading the attributes of an instance *)




